(** * South Pole traverse emissions calculator

    A shallow embedding of [argonne_final/south_pole_traverse.py] and the
    properties its specification states about it.

    Modelling conventions.
    - A Python [float] is an IEEE 754 binary64 number, Rocq's primitive
      [float]: [+], [*] and [/] round to nearest even, overflow to an
      infinity, underflow to zero and give NaN for [inf * 0], as CPython's
      do.  A decimal literal of the source denotes the binary64 number
      nearest to it.  Equality of two [float]s is identity of the numbers:
      it tells [0.0] from [-0.0], and there is one NaN.  What is proved of
      all inputs is proved from the specification of the binary64 operations
      ([SpecFloat]), what is proved of one input by evaluation.
    - The numeric arguments are [float]s, the type the docstrings give them.
      The [int] literals of the source are small and enter the arithmetic
      only through operations whose binary64 result is the same for the
      [int] and for its [float].  [int] arguments are outside the embedding;
      an [int] that binary64 cannot hold is the only source of an
      [OverflowError] in this module.
    - [x / y] is Python's true division: it raises [ZeroDivisionError] when
      [y == 0], that is for [0.0] and for [-0.0], and only then.
    - A [dict] is an insertion-ordered association list with unique keys,
      which is what a Python dictionary is; [d[k]] raises [KeyError] when
      [k] is absent, [d[k] = v] overwrites in place or appends.
    - Exceptions are the [Raise] results of an error monad. *)

From Stdlib Require Import ZArith Floats.
From stdpp Require Import numbers base option list strings gmap.

Local Open Scope string_scope.
Local Open Scope list_scope.
Local Open Scope float_scope.

#[local] Set Warnings "-inexact-float".

(** ** Python values *)

Inductive exn : Type :=
  | KeyError (key : string)
  | ZeroDivisionError.

Inductive result (A : Type) : Type :=
  | Ok (a : A)
  | Raise (e : exn).
Arguments Ok {A} a.
Arguments Raise {A} e.

#[global] Instance result_ret : MRet result := @Ok.
#[global] Instance result_bind : MBind result := fun A B f r =>
  match r with
  | Ok a => f a
  | Raise e => Raise e
  end.

Definition is_Ok {A} (r : result A) : Prop := exists a, r = Ok a.

(** [x / y] *)
Definition pydiv (x y : float) : result float :=
  if y =? 0 then Raise ZeroDivisionError else Ok (x / y).
Infix "//" := pydiv (at level 40, left associativity).

(** ** Dictionaries *)

Definition dict (V : Type) : Type := list (string * V).

Definition keys {V} (d : dict V) : list string := d.*1.
Definition values {V} (d : dict V) : list V := d.*2.

(** The invariant of a Python dictionary: no key occurs twice. *)
Definition wf_dict {V} (d : dict V) : Prop := NoDup (keys d).

(** [d.get(k)] *)
Fixpoint dict_get {V} (d : dict V) (k : string) : option V :=
  match d with
  | [] => None
  | (k', v) :: d' => if decide (k' = k) then Some v else dict_get d' k
  end.

(** [d[k]] *)
Definition getitem {V} (d : dict V) (k : string) : result V :=
  match dict_get d k with
  | Some v => Ok v
  | None => Raise (KeyError k)
  end.

(** [d[k] = v] *)
Fixpoint dict_set {V} (d : dict V) (k : string) (v : V) : dict V :=
  match d with
  | [] => [(k, v)]
  | (k', v') :: d' =>
      if decide (k' = k) then (k', v) :: d' else (k', v') :: dict_set d' k v
  end.

(** [for x in l: s = body(s, x)], stopping at the first exception. *)
Fixpoint for_each {A S} (l : list A) (s : S) (body : S -> A -> result S)
  : result S :=
  match l with
  | [] => Ok s
  | x :: l' => s' ← body s x; for_each l' s' body
  end.

(** The fixed set of tracked gases. *)
Definition pollutants : list string := ["CO2"; "CH4"; "N2O"].

(** ** Leg emission calculators *)

Definition emissions_factors_truck : dict float :=
  [("CO2", 89.77044869); ("CH4", 0.109408298); ("N2O", 0.000355609)].

Definition calculate_truck_emissions (miles cargo_weight_in_tons quantity : float)
  : result (dict float) :=
  let btu_per_gallon_diesel := 138700 in
  let energy_intensity_truck_origin_to_destination := 684 in
  let btu_per_mile_empty := 13567 in
  let btu_per_mile_truck_origin_to_destination :=
    energy_intensity_truck_origin_to_destination * cargo_weight_in_tons in
  gallons_per_mile_truck_origin_to_destination ←
    btu_per_mile_truck_origin_to_destination // btu_per_gallon_diesel;
  gallons_per_mile_empty ← btu_per_mile_empty // btu_per_gallon_diesel;
  for_each emissions_factors_truck [] (fun total_emissions '(emission, factor) =>
    loaded ← (factor * gallons_per_mile_truck_origin_to_destination
              * btu_per_gallon_diesel) // 1e6;
    let emissions_origin_to_destination := loaded * miles in
    empty ← (factor * gallons_per_mile_empty * btu_per_gallon_diesel) // 1e6;
    let emissions_empty_back := empty * miles in
    Ok (dict_set total_emissions emission
          ((emissions_origin_to_destination + emissions_empty_back) * quantity))).

(** [calculate_co2_equivalent]: the three lookups, in the source's order. *)
Definition calculate_co2_equivalent (emissions_dictionary : dict float)
  : result float :=
  co2 ← getitem emissions_dictionary "CO2";
  let co2_eq_co2 := co2 * 1 in
  ch4 ← getitem emissions_dictionary "CH4";
  let co2_eq_ch4 := ch4 * 29.8 in
  n2o ← getitem emissions_dictionary "N2O";
  let co2_eq_n2o := n2o * 273 in
  Ok (co2_eq_co2 + co2_eq_ch4 + co2_eq_n2o).

Definition emissions_factors_tanker : dict float :=
  [("CO2", 262.9991694); ("CH4", 0.293135661); ("N2O", 0.006037729)].

Definition calculate_tanker_emissions (miles cargo_weight number_of_tankers : float)
  : result (dict float) :=
  let btu_per_gallon_residual_oil := 149700 in
  let energy_intensity_tanker_origin_to_destination := 43 in
  let load_factor_tanker_back_haul := 0.70 in
  let hp_tanker := 19170 in
  let average_speed_tanker := 20 in
  let energy_consumption_tanker := 5439 in
  let btu_per_mile_tanker_origin_to_destination :=
    energy_intensity_tanker_origin_to_destination * cargo_weight in
  btu_per_mile_tanker_back_haul ←
    (energy_consumption_tanker * hp_tanker * load_factor_tanker_back_haul)
      // average_speed_tanker;
  gallons_per_mile_tanker_origin_to_destination ←
    btu_per_mile_tanker_origin_to_destination // btu_per_gallon_residual_oil;
  gallons_per_mile_tanker_back_haul ←
    btu_per_mile_tanker_back_haul // btu_per_gallon_residual_oil;
  for_each emissions_factors_tanker [] (fun total_emissions '(pollutant, factor) =>
    loaded ← (factor * gallons_per_mile_tanker_origin_to_destination
              * btu_per_gallon_residual_oil) // 1e6;
    let emissions_origin_to_destination := loaded * miles in
    back ← (factor * gallons_per_mile_tanker_back_haul
            * btu_per_gallon_residual_oil) // 1e6;
    let emissions_back_haul := back * miles in
    Ok (dict_set total_emissions pollutant
          ((emissions_origin_to_destination + emissions_back_haul)
           * number_of_tankers))).

(** Production emission factors of [calculate_fuelused_emissions]. *)
Definition emissions_factors : dict (dict float) :=
  [("diesel", [("CO2", 12747.98); ("CH4", 109.519); ("N2O", 0.233)]);
   ("resid", [("CO2", 9670.93); ("CH4", 100.419); ("N2O", 0.162)])].

Definition calculate_fuelused_emissions (miles_ocean_tanker miles_truck : float)
  : result (dict float) :=
  let btu_per_gallon_diesel := 138700 in
  let btu_per_gallon_resid := 149700 in
  let energy_consumption_btu_hphr := 5439 in
  let engine_efficiency := 0.50 in
  let average_speed_mph_tanker := 20 in
  let mpg_truck := 5.6 in
  gallons_per_hour_per_hp_tanker ←
    energy_consumption_btu_hphr // (btu_per_gallon_resid * engine_efficiency);
  mpg_tanker ← average_speed_mph_tanker // gallons_per_hour_per_hp_tanker;
  gallons_per_mile_tanker ← 1.0 // mpg_tanker;
  gallons_per_mile_truck ← 1.0 // mpg_truck;
  let total_fuel_consumption_tanker := miles_ocean_tanker * gallons_per_mile_tanker in
  let total_fuel_consumption_truck := miles_truck * gallons_per_mile_truck in
  total_fuel_consumption_mmBtu_tanker ←
    (total_fuel_consumption_tanker * btu_per_gallon_resid) // 1e6;
  total_fuel_consumption_mmBtu_truck ←
    (total_fuel_consumption_truck * btu_per_gallon_diesel) // 1e6;
  let combined_emissions : dict float :=
    [("CO2", 0); ("CH4", 0); ("N2O", 0)] in
  for_each (keys combined_emissions) combined_emissions
    (fun combined_emissions pollutant =>
       resid ← getitem emissions_factors "resid";
       resid_factor ← getitem resid pollutant;
       diesel ← getitem emissions_factors "diesel";
       diesel_factor ← getitem diesel pollutant;
       Ok (dict_set combined_emissions pollutant
             (total_fuel_consumption_mmBtu_tanker * resid_factor
              + total_fuel_consumption_mmBtu_truck * diesel_factor))).

Definition emissions_factors_diesel : dict float :=
  [("CO2", 12747.98); ("CH4", 109.519); ("N2O", 0.233)].

Definition calculate_emissions_from_diesel (gallons_diesel : float)
  : result (dict float) :=
  let btu_per_gallon_diesel := 138700 in
  total_energy_mmBtu ← (gallons_diesel * btu_per_gallon_diesel) // 1e6;
  for_each emissions_factors_diesel [] (fun emissions '(pollutant, factor) =>
    Ok (dict_set emissions pollutant (total_energy_mmBtu * factor))).

(** A value of the embodied-emissions mapping: a bare number or a nested
    record ([isinstance(value, dict)]). *)
Inductive entry : Type :=
  | Scalar (value : float)
  | Nested (value : dict float).

Definition embodied_renewable_emissions
    (target_solar target_wind target_bess_energy target_diesel : float)
  : result (dict entry) :=
  let emissions_factor_bess := 220000 in
  let emissions_factor_solar := 1100000 in
  let emissions_factor_wind := 683700 in
  let embodied_emissions_bess := target_bess_energy * emissions_factor_bess in
  let embodied_emissions_solar := target_solar * emissions_factor_solar in
  let embodied_emissions_wind := target_wind * emissions_factor_wind in
  embodied_emissions_diesel ← calculate_emissions_from_diesel target_diesel;
  embodied_emissions_diesel ←
    for_each embodied_emissions_diesel [] (fun d '(pollutant, total) =>
      Ok (dict_set d pollutant total));
  Ok [("bess", Scalar embodied_emissions_bess);
      ("solar", Scalar embodied_emissions_solar);
      ("wind", Scalar embodied_emissions_wind);
      ("diesel", Nested embodied_emissions_diesel)].

(** ** Aggregators *)

(** One iteration of the inner loop of [sum_emissions]. *)
Definition sum_step (total_emissions : dict float) (item : string * float)
  : dict float :=
  let '(pollutant, amount) := item in
  match dict_get total_emissions pollutant with
  | Some old => dict_set total_emissions pollutant (old + amount)
  | None => dict_set total_emissions pollutant amount
  end.

Definition sum_emissions (emission_dicts : list (dict float)) : dict float :=
  foldl (fun total_emissions emissions => foldl sum_step total_emissions emissions)
        [] emission_dicts.

(** [total_emissions[pollutant] += amount] *)
Definition add_amount (total_emissions : dict float) (item : string * float)
  : result (dict float) :=
  let '(pollutant, amount) := item in
  old ← getitem total_emissions pollutant;
  Ok (dict_set total_emissions pollutant (old + amount)).

Definition consolidate_scenario_emissions
    (transport_emissions : dict (dict float)) (additional_emissions : dict entry)
  : result (dict float) :=
  let total_emissions : dict float :=
    [("CO2", 0); ("CH4", 0); ("N2O", 0)] in
  total_emissions ←
    for_each (values transport_emissions) total_emissions
      (fun total_emissions unit_emissions =>
         for_each unit_emissions total_emissions add_amount);
  for_each additional_emissions total_emissions
    (fun total_emissions '(key, value) =>
       match value with
       | Nested value => for_each value total_emissions add_amount
       | Scalar value => add_amount total_emissions ("CO2", value)
       end).

(** ** Scenario composer *)

Definition transportation_scenario_emissions
    (target_solar turbine_power target_wind target_bess_power
     target_bess_energy target_diesel : float)
  : result (dict (dict float)) :=
  let pv_g_kw := 160 in
  let bess_container_weight_kg := 18000 in
  let bess_energy_capacity_kwh := 1240 in
  let nps_100c_24_weight := 19.8 in
  num_turbines ← target_wind // turbine_power;
  let total_weight_turbines := num_turbines * nps_100c_24_weight in
  let total_grams_pv := target_solar * pv_g_kw in
  total_tons_pv ← total_grams_pv // 907185;
  num_bess_units ← target_bess_energy // bess_energy_capacity_kwh;
  container_tons ← bess_container_weight_kg // 1000;
  let total_weight_bess_tons := num_bess_units * container_tons in
  total_weight_diesel_tons ← (target_diesel * 6.5) // 2000;
  (* wind turbines *)
  wind_leg1 ← calculate_tanker_emissions 6900 total_weight_turbines 1;
  wind_half ← total_weight_turbines // 2;
  wind_leg2 ← calculate_tanker_emissions 2415 wind_half 2;
  wind_per_truck ← total_weight_turbines // (num_turbines * 7);
  wind_leg3 ← calculate_truck_emissions 1030 wind_per_truck (num_turbines * 7);
  let wind_trip_emissions := sum_emissions [wind_leg1; wind_leg2; wind_leg3] in
  (* PV panels *)
  pv_leg1 ← calculate_tanker_emissions 6900 total_tons_pv 1;
  pv_half ← total_tons_pv // 2;
  pv_leg2 ← calculate_tanker_emissions 2415 pv_half 2;
  pv_per_truck ← total_tons_pv // 9;
  pv_leg3 ← calculate_truck_emissions 1030 pv_per_truck 9;
  let pv_trip_emissions := sum_emissions [pv_leg1; pv_leg2; pv_leg3] in
  (* BESS units *)
  bess_leg1 ← calculate_tanker_emissions 6900 total_weight_bess_tons 1;
  bess_half ← total_weight_bess_tons // 2;
  bess_leg2 ← calculate_tanker_emissions 2415 bess_half 2;
  bess_per_truck ← total_weight_bess_tons // num_bess_units;
  bess_leg3 ← calculate_truck_emissions 100 bess_per_truck num_bess_units;
  let bess_trip_emissions := sum_emissions [bess_leg1; bess_leg2; bess_leg3] in
  (* diesel *)
  diesel_leg1 ← calculate_tanker_emissions 6900 total_weight_diesel_tons 1;
  diesel_half ← total_weight_diesel_tons // 2;
  diesel_leg2 ← calculate_tanker_emissions 2415 diesel_half 2;
  diesel_per_truck ← total_weight_diesel_tons // 9;
  diesel_leg3 ← calculate_truck_emissions 1030 diesel_per_truck 9;
  let diesel_trip_emissions :=
    sum_emissions [diesel_leg1; diesel_leg2; diesel_leg3] in
  Ok [("wind_turbines_transport", wind_trip_emissions);
      ("pv_panels_transport", pv_trip_emissions);
      ("bess_units_transport", bess_trip_emissions);
      ("diesel_transport", diesel_trip_emissions)].

(** ** [sum_emissions] on a store of dictionary objects

    The arguments of [sum_emissions] are references to dictionaries the
    caller still holds.  To speak about what the function writes, the
    dictionaries live in a store and the function runs on their addresses.
    [None] is a dangling address, which no Python program produces. *)

Module Store.

(** An address is a [positive]; a store maps addresses to dictionaries. *)

(** [{}]: a new, empty dictionary object. *)
Definition new_dict (h : gmap positive (dict float))
  : positive * gmap positive (dict float) :=
  let l := fresh (dom h) in (l, <[l := []]> h).

(** [for x in l: h = body(h, x)] on stores. *)
Fixpoint iter {A} (l : list A) (h : gmap positive (dict float))
    (body : gmap positive (dict float) -> A -> option (gmap positive (dict float)))
  : option (gmap positive (dict float)) :=
  match l with
  | [] => Some h
  | x :: l' => h' ← body h x; iter l' h' body
  end.

(** The body of the inner loop: the only write is to [total_emissions]. *)
Definition sum_write (total_emissions : positive) (h : gmap positive (dict float))
    (item : string * float) : option (gmap positive (dict float)) :=
  let '(pollutant, amount) := item in
  total ← h !! total_emissions;
  match dict_get total pollutant with
  | Some old => Some (<[total_emissions := dict_set total pollutant (old + amount)]> h)
  | None => Some (<[total_emissions := dict_set total pollutant amount]> h)
  end.

Definition sum_emissions (emission_dicts : list positive)
    (h : gmap positive (dict float))
  : option (positive * gmap positive (dict float)) :=
  let '(total_emissions, h) := new_dict h in
  h ← iter emission_dicts h (fun h emissions =>
         items ← (h !! emissions : option (dict float));
         iter items h (sum_write total_emissions));
  Some (total_emissions, h).

End Store.

(** ** Vocabulary of the statements *)

(** Grams of one gas for a truck leg, in the operation order of the source. *)
Definition truck_grams (factor miles cargo_weight_in_tons quantity : float)
  : float :=
  (factor * (684 * cargo_weight_in_tons / 138700) * 138700 / 1e6 * miles
   + factor * (13567 / 138700) * 138700 / 1e6 * miles)
  * quantity.

(** Grams of one gas for a tanker leg, in the operation order of the source. *)
Definition tanker_grams (factor miles cargo_weight number_of_tankers : float)
  : float :=
  (factor * (43 * cargo_weight / 149700) * 149700 / 1e6 * miles
   + factor * (5439 * 19170 * 0.70 / 20 / 149700) * 149700 / 1e6 * miles)
  * number_of_tankers.

(** Grams of one gas for the production of the fuel burnt, in the operation
    order of the source. *)
Definition fuelused_grams (resid_factor diesel_factor
                           miles_ocean_tanker miles_truck : float) : float :=
  miles_ocean_tanker * (1.0 / (20 / (5439 / (149700 * 0.50))))
    * 149700 / 1e6 * resid_factor
  + miles_truck * (1.0 / 5.6) * 138700 / 1e6 * diesel_factor.

(** A record of the three tracked gases, in the order the calculators build
    it. *)
Definition record3 (co2 ch4 n2o : float) : dict float :=
  [("CO2", co2); ("CH4", ch4); ("N2O", n2o)].

(** The records the calculators return. *)
Definition truck_record (miles cargo quantity : float) : dict float :=
  record3 (truck_grams 89.77044869 miles cargo quantity)
          (truck_grams 0.109408298 miles cargo quantity)
          (truck_grams 0.000355609 miles cargo quantity).

Definition tanker_record (miles cargo tankers : float) : dict float :=
  record3 (tanker_grams 262.9991694 miles cargo tankers)
          (tanker_grams 0.293135661 miles cargo tankers)
          (tanker_grams 0.006037729 miles cargo tankers).

Definition fuelused_record (miles_ocean_tanker miles_truck : float) : dict float :=
  record3 (fuelused_grams 9670.93 12747.98 miles_ocean_tanker miles_truck)
          (fuelused_grams 100.419 109.519 miles_ocean_tanker miles_truck)
          (fuelused_grams 0.162 0.233 miles_ocean_tanker miles_truck).

Definition diesel_record (gallons : float) : dict float :=
  record3 (gallons * 138700 / 1e6 * 12747.98)
          (gallons * 138700 / 1e6 * 109.519)
          (gallons * 138700 / 1e6 * 0.233).

(** The truck formula in the words of the specification. *)
Definition spec_truck_grams (f m w q : float) : float :=
  f * ((684 * w) / 1e6 * m + 13567 / 1e6 * m) * q.

(** The documented reference value of [truckLegEmissions(1000, 20, 5)]. *)
Definition spec_truck_reference (f : float) : float :=
  ((f * (684 * 20) / 138700 * 138700 / 1e6 * 1000)
   + (f * 13567 / 138700 * 138700 / 1e6 * 1000)) * 5.

(** The record and the reference value of the documented CO2-equivalent
    example. *)
Definition reference_record : dict float :=
  [("CO2", 233759086.75851363); ("CH4", 1922227.9395642178);
   ("N2O", 4325.249834421531)].

Definition reference_co2_equivalent : float :=
  233759086.76 + 1922227.94 * 29.8 + 4325.25 * 273.

(** Orders on numbers, as Python's comparisons decide them: [0 <= x],
    [0 < x < inf], and [not (x < 0)], which NaN satisfies too. *)
Definition nonneg (x : float) : Prop := (0 <=? x) = true.
Definition positive_finite (x : float) : Prop :=
  (0 <? x) = true /\ (x <? infinity) = true.
Definition not_negative (x : float) : Prop := (x <? 0) = false.

Definition nonneg_record (r : dict float) : Prop := Forall nonneg (values r).
Definition not_negative_record (r : dict float) : Prop :=
  Forall not_negative (values r).

(** The same orders read off the sign and the class of a number. *)
Definition sf_nonneg (s : spec_float) : Prop :=
  match s with
  | S754_zero _ | S754_infinity false | S754_finite false _ _ => True
  | _ => False
  end.

Definition sf_positive_finite (s : spec_float) : Prop :=
  match s with
  | S754_finite false _ _ => True
  | _ => False
  end.

Definition sf_not_negative (s : spec_float) : Prop :=
  match s with
  | S754_infinity true | S754_finite true _ _ => False
  | _ => True
  end.

(** The value a mapping contributes at a key: its entry, nothing if absent. *)
Definition amount_at (d : dict float) (p : string) : float :=
  default 0 (dict_get d p).

(** The outer loop of [sum_emissions], from any running total. *)
Definition sum_from (total_emissions : dict float)
    (emission_dicts : list (dict float)) : dict float :=
  foldl (fun total emissions => foldl sum_step total emissions)
        total_emissions emission_dicts.

(** Numbers added one after the other, from left to right: onto a running
    total, and onto the first of them when there is no total yet. *)
Definition add_in_order (total : float) (amounts : list float) : float :=
  foldl PrimFloat.add total amounts.

Definition sum_in_order (amounts : list float) : option float :=
  match amounts with
  | [] => None
  | amount :: amounts => Some (add_in_order amount amounts)
  end.

(** The values a list of mappings has at a key, in the order of the list;
    a mapping without the key has none. *)
Definition amounts_at (p : string) (ds : list (dict float)) : list float :=
  omap (fun d => dict_get d p) ds.

(** What one value of the embodied-emissions mapping adds to the totals:
    a nested record adds itself, a bare number adds to CO2 only. *)
Definition entry_record (e : entry) : dict float :=
  match e with
  | Scalar value => [("CO2", value)]
  | Nested value => value
  end.

(** All the records consolidation adds up, in the order it visits them. *)
Definition contributions (transport_emissions : dict (dict float))
    (additional_emissions : dict entry) : list (dict float) :=
  values transport_emissions ++ (entry_record <$> values additional_emissions).

(** The nested records of an embodied-emissions mapping. *)
Definition nested_records (additional_emissions : dict entry)
  : list (dict float) :=
  omap (fun e => match e with Nested d => Some d | Scalar _ => None end)
       (values additional_emissions).

(** The record consolidation starts from. *)
Definition zero_totals : dict float := [("CO2", 0); ("CH4", 0); ("N2O", 0)].

(** A Pollutant Emission Record: a dictionary whose keys are tracked gases. *)
Definition only_tracked (d : dict float) : Prop :=
  Forall (fun k => k ∈ pollutants) (keys d).

Definition tracked_record (d : dict float) : Prop := wf_dict d /\ only_tracked d.

(** A record with a key outside the tracked gases. *)
Definition foreign_key (d : dict float) : Prop :=
  Exists (fun k => k ∉ pollutants) (keys d).

(** The component total of a three-leg chain: the Sum aggregator applied to
    what the two tanker legs and the truck leg return. *)
Definition legs_total (tanker_full tanker_half truck : result (dict float))
    (total : dict float) : Prop :=
  exists leg1 leg2 leg3,
    tanker_full = Ok leg1 /\ tanker_half = Ok leg2 /\ truck = Ok leg3 /\
    total = sum_emissions [leg1; leg2; leg3].

(** The total of one component of the composer: the two tanker legs over
    6900 and 2415 miles and the truck leg. *)
Definition component_total (cargo truck_miles cargo_per_truck trucks : float)
  : dict float :=
  sum_emissions [tanker_record 6900 cargo 1;
                 tanker_record 2415 (cargo / 2) 2;
                 truck_record truck_miles cargo_per_truck trucks].

(** The names of the four component totals, in the order of the result. *)
Definition components : list string :=
  ["wind_turbines_transport"; "pv_panels_transport";
   "bess_units_transport"; "diesel_transport"].

(** * Properties *)

(** ** Numbers *)

Lemma pydiv_nonzero x y : (y =? 0) = false -> x // y = Ok (x / y).
Proof. unfold pydiv. by intros ->. Qed.

Lemma pydiv_zero x y : (y =? 0) = true -> x // y = Raise ZeroDivisionError.
Proof. unfold pydiv. by intros ->. Qed.

(** Two different numbers are told apart by comparing them. *)
Ltac float_neq :=
  let H := fresh in
  intros H;
  match type of H with
  | ?x = ?y => apply (f_equal (fun z => PrimFloat.Leibniz.eqb z y)) in H
  end;
  vm_compute in H; discriminate H.

(** *** Signs

    The sign of a product, of a quotient and of a sum of two numbers that
    are not negative, read off the specification of the binary64
    operations: rounding never changes a sign. *)

Section rounding.
Variables prec emax : Z.

Lemma shr_1_nonneg mrs : (0 <= shr_m mrs)%Z -> (0 <= shr_m (shr_1 mrs))%Z.
Proof. destruct mrs as [[|[p|p|]|p] r s]; simpl; lia. Qed.

Lemma iter_pos_shr_1_nonneg p mrs :
  (0 <= shr_m mrs)%Z -> (0 <= shr_m (SpecFloat.iter_pos shr_1 p mrs))%Z.
Proof.
  revert mrs. induction p as [p IH|p IH|]; intros mrs Hm; simpl.
  - by apply IH, IH, shr_1_nonneg.
  - by apply IH, IH.
  - by apply shr_1_nonneg.
Qed.

Lemma shr_m_record_of_loc m l : shr_m (shr_record_of_loc m l) = m.
Proof. by destruct l as [|[]]. Qed.

Lemma shr_fexp_nonneg m e l :
  (0 <= m)%Z -> (0 <= shr_m (shr_fexp prec emax m e l).1)%Z.
Proof.
  intros Hm. unfold shr_fexp, shr.
  destruct (fexp prec emax (Zdigits2 m + e) - e)%Z; simpl;
    rewrite ?shr_m_record_of_loc; [done| |done].
  apply iter_pos_shr_1_nonneg. by rewrite shr_m_record_of_loc.
Qed.

Lemma round_nearest_even_nonneg m l :
  (0 <= m)%Z -> (0 <= round_nearest_even m l)%Z.
Proof.
  intros Hm. unfold round_nearest_even.
  destruct l as [|[]]; try done; [destruct (Z.even m)|]; lia.
Qed.

(** Rounding gives the sign it was asked for, or NaN. *)
Lemma binary_round_aux_not_negative m e l :
  sf_not_negative (binary_round_aux prec emax false m e l).
Proof.
  unfold binary_round_aux.
  destruct (shr_fexp prec emax m e l) as [mrs' e'].
  destruct (shr_fexp prec emax _ e' loc_Exact) as [mrs'' e''].
  destruct (shr_m mrs''); [done| |done].
  by destruct (e'' <=? emax - prec)%Z.
Qed.

(** Rounding a non-negative mantissa does not give NaN. *)
Lemma binary_round_aux_nonneg m e l :
  (0 <= m)%Z -> sf_nonneg (binary_round_aux prec emax false m e l).
Proof.
  intros Hm. unfold binary_round_aux.
  pose proof (shr_fexp_nonneg m e l Hm) as H1.
  destruct (shr_fexp prec emax m e l) as [mrs' e']. simpl in H1.
  pose proof (shr_fexp_nonneg _ e' loc_Exact
                (round_nearest_even_nonneg _ (loc_of_shr_record mrs') H1)) as H2.
  destruct (shr_fexp prec emax _ e' loc_Exact) as [mrs'' e'']. simpl in H2.
  destruct (shr_m mrs''); [done| |lia].
  by destruct (e'' <=? emax - prec)%Z.
Qed.

Lemma binary_round_nonneg m e : sf_nonneg (binary_round prec emax false m e).
Proof.
  unfold binary_round. destruct (shl_align _ _ _) as [mz ez].
  by apply binary_round_aux_nonneg.
Qed.

Lemma binary_round_not_negative m e :
  sf_not_negative (binary_round prec emax false m e).
Proof.
  unfold binary_round. destruct (shl_align _ _ _) as [mz ez].
  apply binary_round_aux_not_negative.
Qed.

Lemma SFdiv_core_binary_nonneg m1 e1 m2 e2 :
  (0 <= (SFdiv_core_binary prec emax (Zpos m1) e1 (Zpos m2) e2).1.1)%Z.
Proof.
  unfold SFdiv_core_binary.
  set (s := (e1 - e2 - _)%Z).
  set (m' := match s with Zpos _ => Z.shiftl (Zpos m1) s | Z0 => Zpos m1 | Zneg _ => 0%Z end).
  assert (Hm' : (0 <= m')%Z).
  { unfold m'. destruct s; [done| |done]. by apply Z.shiftl_nonneg. }
  pose proof (Z_div_mod m' (Zpos m2) eq_refl) as Hdiv.
  destruct (Z.div_eucl m' (Zpos m2)) as [q r]. simpl.
  destruct Hdiv as [Heq Hr]. nia.
Qed.

Lemma SFmul_nonneg x y :
  sf_nonneg x -> sf_positive_finite y -> sf_nonneg (SFmul prec emax x y).
Proof.
  destruct x as [sx|[]| |[] mx ex], y as [sy|sy| |[] my ey]; try done; intros _ _.
  by apply binary_round_aux_nonneg.
Qed.

Lemma SFmul_nonneg_l x y :
  sf_positive_finite x -> sf_nonneg y -> sf_nonneg (SFmul prec emax x y).
Proof.
  destruct x as [sx|sx| |[] mx ex], y as [sy|[]| |[] my ey]; try done; intros _ _.
  by apply binary_round_aux_nonneg.
Qed.

Lemma SFdiv_nonneg x y :
  sf_nonneg x -> sf_positive_finite y -> sf_nonneg (SFdiv prec emax x y).
Proof.
  destruct x as [sx|[]| |[] mx ex], y as [sy|sy| |[] my ey]; try done; intros _ _.
  unfold SFdiv. pose proof (SFdiv_core_binary_nonneg mx ex my ey) as H.
  destruct (SFdiv_core_binary _ _ _ _ _ _) as [[mz ez] lz].
  by apply binary_round_aux_nonneg.
Qed.

Lemma SFadd_nonneg x y :
  sf_nonneg x -> sf_nonneg y -> sf_nonneg (SFadd prec emax x y).
Proof.
  destruct x as [[]|[]| |[] mx ex], y as [[]|[]| |[] my ey]; try done; intros _ _.
  unfold SFadd, cond_Zopp, binary_normalize. cbn [Z.add].
  apply binary_round_nonneg.
Qed.

Lemma SFmul_not_negative x y :
  sf_not_negative x -> sf_not_negative y ->
  sf_not_negative (SFmul prec emax x y).
Proof.
  destruct x as [[]|[]| |[] mx ex], y as [[]|[]| |[] my ey]; try done; intros _ _.
  apply binary_round_aux_not_negative.
Qed.

Lemma SFdiv_not_negative x y :
  sf_not_negative x -> sf_positive_finite y ->
  sf_not_negative (SFdiv prec emax x y).
Proof.
  destruct x as [[]|[]| |[] mx ex], y as [[]|[]| |[] my ey]; try done; intros _ _.
  unfold SFdiv. destruct (SFdiv_core_binary _ _ _ _ _ _) as [[mz ez] lz].
  apply binary_round_aux_not_negative.
Qed.

Lemma SFdiv_not_negative_nonzero x y :
  sf_not_negative x -> sf_not_negative y -> SFeqb y (S754_zero false) = false ->
  sf_not_negative (SFdiv prec emax x y).
Proof.
  destruct x as [[]|[]| |[] mx ex], y as [[]|[]| |[] my ey]; try done;
    intros _ _ _.
  unfold SFdiv. destruct (SFdiv_core_binary _ _ _ _ _ _) as [[mz ez] lz].
  apply binary_round_aux_not_negative.
Qed.

Lemma SFadd_not_negative x y :
  sf_not_negative x -> sf_not_negative y ->
  sf_not_negative (SFadd prec emax x y).
Proof.
  destruct x as [[]|[]| |[] mx ex], y as [[]|[]| |[] my ey]; try done; intros _ _.
  unfold SFadd, cond_Zopp, binary_normalize. cbn [Z.add].
  apply binary_round_not_negative.
Qed.
End rounding.

Lemma sf_nonneg_not_negative s : sf_nonneg s -> sf_not_negative s.
Proof. by destruct s as [|[]| |[]]. Qed.

Lemma sf_positive_finite_nonneg s : sf_positive_finite s -> sf_nonneg s.
Proof. by destruct s as [|[]| |[]]. Qed.

(** The orders of Python's comparisons are those of the sign and class. *)
Lemma nonneg_sf x : nonneg x <-> sf_nonneg (Prim2SF x).
Proof.
  unfold nonneg. rewrite leb_spec.
  replace (Prim2SF 0) with (S754_zero false) by reflexivity.
  by destruct (Prim2SF x) as [[]|[]| |[] m e].
Qed.

Lemma not_negative_sf x : not_negative x <-> sf_not_negative (Prim2SF x).
Proof.
  unfold not_negative. rewrite ltb_spec.
  replace (Prim2SF 0) with (S754_zero false) by reflexivity.
  by destruct (Prim2SF x) as [[]|[]| |[] m e].
Qed.

Lemma positive_finite_sf x : positive_finite x <-> sf_positive_finite (Prim2SF x).
Proof.
  unfold positive_finite. rewrite !ltb_spec.
  replace (Prim2SF 0) with (S754_zero false) by reflexivity.
  replace (Prim2SF infinity) with (S754_infinity false) by reflexivity.
  destruct (Prim2SF x) as [[]|[]| |[] m e]; cbn; intuition congruence.
Qed.

Lemma mul_nonneg x y : nonneg x -> positive_finite y -> nonneg (x * y).
Proof.
  rewrite !nonneg_sf, positive_finite_sf, mul_spec. apply SFmul_nonneg.
Qed.

Lemma mul_nonneg_l x y : positive_finite x -> nonneg y -> nonneg (x * y).
Proof.
  rewrite !nonneg_sf, positive_finite_sf, mul_spec. apply SFmul_nonneg_l.
Qed.

Lemma div_nonneg x y : nonneg x -> positive_finite y -> nonneg (x / y).
Proof.
  rewrite !nonneg_sf, positive_finite_sf, div_spec. apply SFdiv_nonneg.
Qed.

Lemma add_nonneg x y : nonneg x -> nonneg y -> nonneg (x + y).
Proof. rewrite !nonneg_sf, add_spec. apply SFadd_nonneg. Qed.

Lemma mul_not_negative x y :
  not_negative x -> not_negative y -> not_negative (x * y).
Proof. rewrite !not_negative_sf, mul_spec. apply SFmul_not_negative. Qed.

Lemma div_not_negative x y :
  not_negative x -> positive_finite y -> not_negative (x / y).
Proof.
  rewrite !not_negative_sf, positive_finite_sf, div_spec.
  apply SFdiv_not_negative.
Qed.

Lemma div_not_negative_nonzero x y :
  not_negative x -> not_negative y -> (y =? 0) = false -> not_negative (x / y).
Proof.
  rewrite !not_negative_sf, FloatAxioms.eqb_spec, div_spec.
  apply SFdiv_not_negative_nonzero.
Qed.

Lemma add_not_negative x y :
  not_negative x -> not_negative y -> not_negative (x + y).
Proof. rewrite !not_negative_sf, add_spec. apply SFadd_not_negative. Qed.

Lemma nonneg_not_negative x : nonneg x -> not_negative x.
Proof. rewrite nonneg_sf, not_negative_sf. apply sf_nonneg_not_negative. Qed.

Lemma positive_finite_nonneg x : positive_finite x -> nonneg x.
Proof. rewrite nonneg_sf, positive_finite_sf. apply sf_positive_finite_nonneg. Qed.

(** *** Order

    Rounding is monotone enough for sums of numbers that are not negative: a
    sum is not below its terms, and a product by one not below its factor. *)

Section rounding_order.
Local Open Scope Z_scope.
Let prec := FloatOps.prec.
Let emax := FloatOps.emax.

Lemma shr_1_div2 mrs : 0 <= shr_m mrs -> shr_m (shr_1 mrs) = shr_m mrs / 2.
Proof.
  intros H. rewrite <-Z.div2_div.
  destruct mrs as [[|[p|p|]|p] r s]; simpl in *; (reflexivity || lia).
Qed.

Lemma iter_pos_shr_1_div p mrs :
  0 <= shr_m mrs ->
  shr_m (SpecFloat.iter_pos shr_1 p mrs) = shr_m mrs / 2 ^ Zpos p.
Proof.
  revert mrs. induction p as [p IH|p IH|]; intros mrs Hm; simpl SpecFloat.iter_pos.
  - rewrite IH by (by apply iter_pos_shr_1_nonneg, shr_1_nonneg).
    rewrite IH by (by apply shr_1_nonneg). rewrite shr_1_div2 by done.
    rewrite !Z.div_div by lia. f_equal.
    rewrite Pos2Z.inj_xI, <-!Z.pow_add_r, <-(Z.pow_1_r 2) at 1 by lia.
    rewrite <-Z.pow_add_r by lia. f_equal. lia.
  - rewrite IH by (by apply iter_pos_shr_1_nonneg).
    rewrite IH by done.
    rewrite !Z.div_div by lia. f_equal.
    rewrite Pos2Z.inj_xO, <-!Z.pow_add_r by lia. f_equal. lia.
  - by rewrite shr_1_div2.
Qed.

Lemma digits2_pos_bounds p :
  2 ^ (Zpos (digits2_pos p) - 1) <= Zpos p < 2 ^ Zpos (digits2_pos p).
Proof.
  induction p as [p IH|p IH|]; simpl digits2_pos; [| |simpl; lia].
  all: rewrite Pos2Z.inj_succ;
    replace (Z.succ (Zpos (digits2_pos p)) - 1)
      with (Z.succ (Zpos (digits2_pos p) - 1)) by lia;
    rewrite !Z.pow_succ_r by lia;
    generalize dependent (2 ^ (Zpos (digits2_pos p) - 1));
    generalize dependent (2 ^ Zpos (digits2_pos p)); intros; lia.
Qed.

Lemma Zdigits2_bounds z :
  1 <= z -> 2 ^ (Zdigits2 z - 1) <= z < 2 ^ Zdigits2 z.
Proof. destruct z; [lia| |lia]. intros _. apply digits2_pos_bounds. Qed.

Lemma Zdigits2_pos z : 1 <= z -> 1 <= Zdigits2 z.
Proof. destruct z; simpl; lia. Qed.

Lemma pos_iter_xO m d : Zpos (Pos.iter xO m d) = Zpos m * 2 ^ Zpos d.
Proof.
  induction d as [|d IH] using Pos.peano_ind.
  - simpl. lia.
  - rewrite Pos.iter_succ, Pos2Z.inj_xO, IH, Pos2Z.inj_succ, Z.pow_succ_r by lia. lia.
Qed.

(** The value [m * 2^e] and the exponent after alignment to a lower
    exponent. *)
Lemma shl_align_spec m e e' :
  let r := shl_align m e e' in
  r.2 = Z.min e e' /\ Zpos r.1 = Zpos m * 2 ^ (e - r.2).
Proof.
  unfold shl_align. destruct (e' - e) as [|d|d] eqn:Hd; simpl.
  - split; [lia|]. rewrite Z.sub_diag. simpl. lia.
  - split; [lia|]. rewrite Z.sub_diag. simpl. lia.
  - split; [lia|]. rewrite pos_iter_xO. f_equal. f_equal. lia.
Qed.

Lemma div_pow2_pos n k : 0 <= k -> 2 ^ k <= n -> 1 <= n / 2 ^ k.
Proof.
  intros Hk Hn. apply Z.div_le_lower_bound; [apply Z.pow_pos_nonneg; lia | lia].
Qed.


Lemma fexp_eq e : fexp prec emax e = Z.max (e - 53) (-1074).
Proof. reflexivity. Qed.

(** One right shift to the exponent [fexp] asks for. *)
Lemma shr_fexp_spec m e l :
  1 <= m -> -1074 < Zdigits2 m + e ->
  let r := shr_fexp prec emax m e l in
  r.2 = Z.max e (fexp prec emax (Zdigits2 m + e)) /\
  shr_m r.1 = m / 2 ^ (r.2 - e) /\
  1 <= shr_m r.1.
Proof.
  intros Hm He r. subst r. unfold shr_fexp, shr.
  pose proof (Zdigits2_bounds m Hm) as [Hlo Hhi].
  pose proof (Zdigits2_pos m Hm) as Hd.
  rewrite fexp_eq.
  destruct (Z.max (Zdigits2 m + e - 53) (-1074) - e) as [|k|k] eqn:Hk;
    cbn [fst snd].
  - rewrite shr_m_record_of_loc. split_and!; [lia| |lia].
    by rewrite Z.sub_diag, Z.pow_0_r, Z.div_1_r.
  - rewrite iter_pos_shr_1_div by (rewrite shr_m_record_of_loc; lia).
    rewrite shr_m_record_of_loc.
    replace (e + Zpos k - e) with (Zpos k) by lia.
    split_and!; [lia|done|].
    apply div_pow2_pos; [lia|].
    etrans; [|exact Hlo]. apply Z.pow_le_mono_r; lia.
  - rewrite shr_m_record_of_loc. split_and!; [lia| |lia].
    by rewrite Z.sub_diag, Z.pow_0_r, Z.div_1_r.
Qed.

Lemma round_nearest_even_ge m l : m <= round_nearest_even m l.
Proof.
  unfold round_nearest_even. destruct l as [|[]]; try lia.
  destruct (Z.even m); lia.
Qed.

(** A number [mx * 2^ex] in canonical form, and the rounding of a number
    [n * 2^e] at least as large: the result is not below. *)
Lemma binary_round_aux_ge mx ex n e l :
  fexp prec emax (Zpos (digits2_pos mx) + ex) = ex ->
  e <= ex ->
  Zpos mx * 2 ^ (ex - e) <= Zpos n ->
  SFleb (S754_finite false mx ex) (binary_round_aux prec emax false (Zpos n) e l)
  = true.
Proof.
  intros Hcan He Hn. unfold binary_round_aux.
  assert (Hemin : -1074 <= ex) by (rewrite fexp_eq in Hcan; lia).
  pose proof (digits2_pos_bounds mx) as [Hmlo Hmhi].
  pose proof (digits2_pos_bounds n) as [Hnlo Hnhi].
  assert (Hdigits : Zpos (digits2_pos mx) + ex <= Zpos (digits2_pos n) + e).
  { assert (2 ^ (Zpos (digits2_pos mx) - 1 + (ex - e)) < 2 ^ Zpos (digits2_pos n)) as H.
    { rewrite Z.pow_add_r by lia.
      eapply Z.le_lt_trans; [|exact Hnhi]. etrans; [|exact Hn].
      apply Z.mul_le_mono_nonneg_r; [apply Z.pow_nonneg; lia | done]. }
    apply Z.pow_lt_mono_r_iff in H; lia. }
  pose proof (shr_fexp_spec (Zpos n) e l ltac:(lia) ltac:(simpl; lia)) as H1.
  destruct (shr_fexp prec emax (Zpos n) e l) as [mrs1 e1].
  simpl in H1. destruct H1 as (He1 & Hm1 & Hm1pos).
  rewrite fexp_eq in He1, Hcan.
  assert (Hstep1 : ex <= e1 /\ (e1 = ex -> Zpos mx <= shr_m mrs1)).
  { split; [lia|]. intros ->. rewrite Hm1.
    apply Z.div_le_lower_bound; [apply Z.pow_pos_nonneg; lia | lia]. }
  destruct Hstep1 as [Hex1 Heq1].
  set (m2 := round_nearest_even (shr_m mrs1) (loc_of_shr_record mrs1)).
  assert (Hm2 : shr_m mrs1 <= m2) by apply round_nearest_even_ge.
  assert (Hd2 : 1 <= Zdigits2 m2) by (apply Zdigits2_pos; lia).
  pose proof (shr_fexp_spec m2 e1 loc_Exact ltac:(lia) ltac:(lia)) as H2.
  destruct (shr_fexp prec emax m2 e1 loc_Exact) as [mrs2 e2].
  simpl in H2. destruct H2 as (He2 & Hm3 & Hm3pos).
  destruct (shr_m mrs2) as [|m3|m3] eqn:Hshr; [lia| |lia].
  destruct (e2 <=? emax - prec) eqn:Hbound; [|reflexivity].
  unfold SFleb, SFcompare.
  destruct (Z.compare_spec ex e2) as [Heq|Hlt|Hgt]; [|reflexivity|lia].
  assert (e1 = ex) as -> by lia.
  assert (Hle : Zpos mx <= Zpos m3).
  { rewrite Hm3, <-Heq, Z.sub_diag, Z.pow_0_r, Z.div_1_r. lia. }
  change (Pos.compare_cont Eq mx m3) with (mx ?= m3)%positive.
  destruct (Pos.compare_spec mx m3) as [Hc|Hc|Hc]; try reflexivity. lia.
Qed.

Lemma canonical_exponent mx ex :
  valid_binary (S754_finite false mx ex) = true ->
  fexp prec emax (Zpos (digits2_pos mx) + ex) = ex /\ -1074 <= ex.
Proof.
  unfold SpecFloat.valid_binary, bounded, canonical_mantissa.
  intros [H _]%andb_prop. apply Z.eqb_eq in H. split; [done|].
  rewrite fexp_eq in H. lia.
Qed.

Lemma SFleb_refl_nonneg x : sf_nonneg x -> SFleb x x = true.
Proof.
  destruct x as [s|[]| |[] m e]; try done; intros _.
  unfold SFleb, SFcompare. rewrite Z.compare_refl.
  change (Pos.compare_cont Eq m m) with (m ?= m)%positive.
  by rewrite Pos.compare_refl.
Qed.

Lemma SFadd_finite_ge mx ex my ey :
  valid_binary (S754_finite false mx ex) = true ->
  valid_binary (S754_finite false my ey) = true ->
  let sum := SFadd prec emax (S754_finite false mx ex) (S754_finite false my ey) in
  SFleb (S754_finite false mx ex) sum = true /\
  SFleb (S754_finite false my ey) sum = true.
Proof.
  intros [Hcx Hex]%canonical_exponent [Hcy Hey]%canonical_exponent.
  unfold SFadd, cond_Zopp, binary_normalize.
  pose proof (shl_align_spec mx ex (Z.min ex ey)) as [Ha1 Ha2].
  pose proof (shl_align_spec my ey (Z.min ex ey)) as [Hb1 Hb2].
  destruct (shl_align mx ex (Z.min ex ey)) as [a ea].
  destruct (shl_align my ey (Z.min ex ey)) as [b eb].
  simpl in *. unfold binary_round.
  set (n := (a + b)%positive).
  pose proof (shl_align_spec n (Z.min ex ey)
                (fexp prec emax (Zpos (digits2_pos n) + Z.min ex ey)))
    as [Hz1 Hz2].
  destruct (shl_align n _ _) as [mz ez]. simpl in *.
  rewrite fexp_eq in Hz1.
  assert (0 < 2 ^ (Z.min ex ey - ez)) by (apply Z.pow_pos_nonneg; lia).
  split; (apply binary_round_aux_ge; [done|lia|]);
    rewrite Hz2; unfold n; rewrite Pos2Z.inj_add.
  - rewrite Ha2.
    replace (ex - ez) with ((ex - ea) + (Z.min ex ey - ez)) by lia.
    rewrite Z.pow_add_r by lia. nia.
  - rewrite Hb2.
    replace (ey - ez) with ((ey - eb) + (Z.min ex ey - ez)) by lia.
    rewrite Z.pow_add_r by lia. nia.
Qed.

Lemma SFleb_zero_nonneg s x : sf_nonneg x -> SFleb (S754_zero s) x = true.
Proof. by destruct x as [|[]| |[]]. Qed.

Lemma SFadd_ge x y :
  valid_binary x = true -> valid_binary y = true ->
  sf_nonneg x -> sf_nonneg y ->
  SFleb x (SFadd prec emax x y) = true /\
  SFleb y (SFadd prec emax x y) = true.
Proof.
  intros Hvx Hvy Hx Hy.
  pose proof (SFadd_nonneg prec emax x y Hx Hy) as Hsum.
  destruct x as [sx|[]| |[] mx ex], y as [sy|[]| |[] my ey]; try done;
    try (by apply SFadd_finite_ge);
    split;
    first [ by apply SFleb_zero_nonneg
          | by apply (SFleb_refl_nonneg (S754_finite false _ _)) ].
Qed.

Lemma SFmul_one_ge x :
  valid_binary x = true -> sf_nonneg x ->
  SFleb x (SFmul prec emax x (Prim2SF 1)) = true.
Proof.
  intros Hvx Hx.
  replace (Prim2SF 1) with (S754_finite false 4503599627370496 (-52))
    by reflexivity.
  destruct x as [sx|[]| |[] mx ex]; try done.
  apply canonical_exponent in Hvx as [Hcx Hex].
  unfold SFmul. cbn [xorb].
  apply binary_round_aux_ge; [done|lia|].
  rewrite Pos2Z.inj_mul. replace (ex - (ex + -52)) with 52 by lia. lia.
Qed.

Lemma SFleb_trans x y z :
  SFleb x y = true -> SFleb y z = true -> SFleb x z = true.
Proof.
  unfold SFleb, SFcompare.
  destruct x as [sx|[]| |[] mx ex], y as [sy|[]| |[] my ey],
           z as [sz|[]| |[] mz ez]; try done;
    repeat match goal with
    | |- context [Z.compare ?a ?b] =>
        destruct (Z.compare_spec a b); try done; try lia
    end; subst;
    repeat match goal with
    | |- context [Pos.compare_cont Eq ?a ?b] =>
        change (Pos.compare_cont Eq a b) with (a ?= b)%positive;
        destruct (Pos.compare_spec a b); try done; try lia
    end.
Qed.

End rounding_order.

Lemma add_ge x y : nonneg x -> nonneg y -> (x <=? x + y) = true.
Proof.
  rewrite !nonneg_sf, leb_spec, add_spec. intros Hx Hy.
  by apply SFadd_ge; [apply Prim2SF_valid..| |].
Qed.

Lemma add_ge_r x y : nonneg x -> nonneg y -> (y <=? x + y) = true.
Proof.
  rewrite !nonneg_sf, leb_spec, add_spec. intros Hx Hy.
  by apply SFadd_ge; [apply Prim2SF_valid..| |].
Qed.

Lemma mul_one_ge x : nonneg x -> (x <=? x * 1) = true.
Proof.
  rewrite nonneg_sf, leb_spec, mul_spec.
  apply SFmul_one_ge, Prim2SF_valid.
Qed.

Lemma leb_trans x y z :
  (x <=? y) = true -> (y <=? z) = true -> (x <=? z) = true.
Proof. rewrite !leb_spec. apply SFleb_trans. Qed.

Lemma leb_refl x : nonneg x -> (x <=? x) = true.
Proof. rewrite nonneg_sf, leb_spec. apply SFleb_refl_nonneg. Qed.

(** A running total of numbers that are not negative only grows. *)
Lemma add_in_order_cons total a amounts :
  add_in_order total (a :: amounts) = add_in_order (total + a) amounts.
Proof. reflexivity. Qed.

Lemma add_in_order_nonneg total amounts :
  nonneg total -> Forall nonneg amounts -> nonneg (add_in_order total amounts).
Proof.
  intros Ht Ha. revert total Ht.
  induction Ha as [|a l Ha _ IH]; intros total Ht; [done|].
  rewrite add_in_order_cons. apply IH. by apply add_nonneg.
Qed.

Lemma add_in_order_ge_total total amounts :
  nonneg total -> Forall nonneg amounts ->
  (total <=? add_in_order total amounts) = true.
Proof.
  intros Ht Ha. revert total Ht.
  induction Ha as [|a l Ha _ IH]; intros total Ht; [by apply leb_refl|].
  rewrite add_in_order_cons.
  eapply leb_trans; [by apply (add_ge total a) | apply IH, add_nonneg; done].
Qed.

Lemma add_in_order_ge_amount total amounts a :
  nonneg total -> Forall nonneg amounts -> a ∈ amounts ->
  (a <=? add_in_order total amounts) = true.
Proof.
  intros Ht Ha. revert total Ht.
  induction Ha as [|b l Hb Hl IH]; intros total Ht Hin.
  - by apply elem_of_nil in Hin.
  - rewrite add_in_order_cons. apply elem_of_cons in Hin as [->|Hin].
    + eapply leb_trans; [by apply (add_ge_r total b)|].
      apply add_in_order_ge_total; [by apply add_nonneg | done].
    + apply IH; [by apply add_nonneg | done].
Qed.

(** The order of a literal is settled by evaluation. *)
Ltac literal_order :=
  lazymatch goal with
  | |- positive_finite _ => split; reflexivity
  | |- nonneg _ => reflexivity
  | |- not_negative _ => reflexivity
  end.

(** The sign of an arithmetic expression, by its structure. *)
Ltac positive_finite :=
  first [assumption | literal_order].

Ltac nonneg :=
  first
    [ assumption
    | apply positive_finite_nonneg; assumption
    | lazymatch goal with
      | |- nonneg (_ + _) => apply add_nonneg; nonneg
      | |- nonneg (_ / _) => apply div_nonneg; [nonneg | positive_finite]
      | |- nonneg (_ * _) =>
          first [ apply mul_nonneg; [nonneg | positive_finite]
                | apply mul_nonneg_l; [positive_finite | nonneg] ]
      | |- _ => literal_order
      end ].

Ltac not_negative :=
  first
    [ assumption
    | apply nonneg_not_negative; assumption
    | lazymatch goal with
      | |- not_negative (_ + _) => apply add_not_negative; not_negative
      | |- not_negative (_ / _) =>
          first [ apply div_not_negative; [not_negative | positive_finite]
                | apply div_not_negative_nonzero;
                  [not_negative | not_negative | assumption] ]
      | |- not_negative (_ * _) => apply mul_not_negative; not_negative
      | |- _ => literal_order
      end ].


(** ** Closed forms of the leg calculators

    Each calculator divides only by non-zero literals, so it always returns;
    unfolding its loop gives the record it returns. *)

Lemma calculate_truck_emissions_eq miles cargo quantity :
  calculate_truck_emissions miles cargo quantity
  = Ok (truck_record miles cargo quantity).
Proof. reflexivity. Qed.

Lemma calculate_tanker_emissions_eq miles cargo n :
  calculate_tanker_emissions miles cargo n = Ok (tanker_record miles cargo n).
Proof. reflexivity. Qed.

Lemma calculate_fuelused_emissions_eq miles_ocean_tanker miles_truck :
  calculate_fuelused_emissions miles_ocean_tanker miles_truck
  = Ok (fuelused_record miles_ocean_tanker miles_truck).
Proof. reflexivity. Qed.

Lemma calculate_emissions_from_diesel_eq gallons_diesel :
  calculate_emissions_from_diesel gallons_diesel
  = Ok (diesel_record gallons_diesel).
Proof. reflexivity. Qed.

Lemma embodied_renewable_emissions_eq
    target_solar target_wind target_bess_energy target_diesel :
  embodied_renewable_emissions
    target_solar target_wind target_bess_energy target_diesel
  = Ok [("bess", Scalar (target_bess_energy * 220000));
        ("solar", Scalar (target_solar * 1100000));
        ("wind", Scalar (target_wind * 683700));
        ("diesel", Nested (diesel_record target_diesel))].
Proof. reflexivity. Qed.

(** ** Dictionaries *)

Section dict_lemmas.
Context {V : Type}.
Implicit Types (d : dict V) (k : string) (v : V).

Lemma keys_cons d k v : keys ((k, v) :: d) = k :: keys d.
Proof. reflexivity. Qed.

Lemma dict_get_None d k : dict_get d k = None <-> k ∉ keys d.
Proof.
  induction d as [|[k' v'] d IH]; simpl.
  - split; [intros _; apply not_elem_of_nil | done].
  - rewrite not_elem_of_cons. destruct (decide (k' = k)) as [->|Hne].
    + split; [done | by intros [? _]].
    + rewrite IH. split; [intros ?; split; congruence | by intros [_ ?]].
Qed.

Lemma dict_get_is_Some d k : is_Some (dict_get d k) <-> k ∈ keys d.
Proof.
  rewrite <-not_eq_None_Some, dict_get_None.
  split; [apply dec_stable | auto].
Qed.

Lemma dict_get_set_eq d k v : dict_get (dict_set d k v) k = Some v.
Proof.
  induction d as [|[k' v'] d IH]; simpl.
  - by rewrite decide_True.
  - case_decide; simpl.
    + by rewrite decide_True.
    + by rewrite decide_False.
Qed.

Lemma dict_get_set_ne d k k' v :
  k <> k' -> dict_get (dict_set d k v) k' = dict_get d k'.
Proof.
  intros Hne. induction d as [|[k0 v0] d IH]; simpl.
  - by rewrite decide_False.
  - case_decide; simpl; subst.
    + by rewrite !decide_False.
    + by rewrite IH.
Qed.

Lemma keys_dict_set_in d k v : k ∈ keys d -> keys (dict_set d k v) = keys d.
Proof.
  induction d as [|[k' v'] d IH]; simpl.
  - intros H. by apply elem_of_nil in H.
  - case_decide; simpl; [done|].
    intros [?|H']%elem_of_cons; [congruence|].
    f_equal. by apply IH.
Qed.

Lemma keys_dict_set_notin d k v :
  k ∉ keys d -> keys (dict_set d k v) = keys d ++ [k].
Proof.
  induction d as [|[k' v'] d IH]; simpl; [done|].
  rewrite not_elem_of_cons. intros [Hne Hd].
  rewrite decide_False by done. simpl. f_equal. by apply IH.
Qed.

Lemma elem_of_keys_dict_set d k k' v :
  k' ∈ keys (dict_set d k v) <-> k' = k \/ k' ∈ keys d.
Proof.
  destruct (decide (k ∈ keys d)) as [Hin|Hin].
  - rewrite keys_dict_set_in by done.
    split; [auto | by intros [->|?]].
  - rewrite keys_dict_set_notin, elem_of_app, list_elem_of_singleton by done.
    tauto.
Qed.

Lemma wf_dict_set d k v : wf_dict d -> wf_dict (dict_set d k v).
Proof.
  unfold wf_dict. intros Hd. destruct (decide (k ∈ keys d)) as [Hin|Hin].
  - by rewrite keys_dict_set_in.
  - rewrite keys_dict_set_notin by done.
    apply NoDup_app. split_and!; [done| |apply NoDup_singleton].
    intros x Hx ->%list_elem_of_singleton. done.
Qed.

Lemma dict_set_fresh d k v : k ∉ keys d -> dict_set d k v = d ++ [(k, v)].
Proof.
  induction d as [|[k' v'] d IH]; simpl; [done|].
  rewrite not_elem_of_cons. intros [Hne Hd].
  rewrite decide_False by done. by rewrite IH.
Qed.
End dict_lemmas.

(** Well-formedness of a closed dictionary, by evaluation. *)
Ltac wf_closed :=
  unfold wf_dict; apply (bool_decide_unpack _); vm_compute; exact I.

(** Membership of a closed key in the tracked gases, or not. *)
Ltac not_tracked :=
  let H := fresh in
  vm_compute; intros H;
  repeat (apply elem_of_cons in H as [[=]|H]); by apply elem_of_nil in H.

Lemma for_each_app {A S} (l1 l2 : list A) (s : S) body :
  for_each (l1 ++ l2) s body = s' ← for_each l1 s body; for_each l2 s' body.
Proof.
  revert s. induction l1 as [|x l1 IH]; intros s; simpl; [done|].
  destruct (body s x); simpl; [apply IH | done].
Qed.

Lemma amounts_at_cons p d ds :
  amounts_at p (d :: ds)
  = match dict_get d p with
    | Some a => a :: amounts_at p ds
    | None => amounts_at p ds
    end.
Proof. reflexivity. Qed.

Lemma amounts_at_app p ds1 ds2 :
  amounts_at p (ds1 ++ ds2) = amounts_at p ds1 ++ amounts_at p ds2.
Proof. apply omap_app. Qed.

Lemma add_in_order_app total l1 l2 :
  add_in_order total (l1 ++ l2) = add_in_order (add_in_order total l1) l2.
Proof. apply foldl_app. Qed.

Lemma dict_get_values {V} (d : dict V) k v : dict_get d k = Some v -> v ∈ values d.
Proof.
  induction d as [|[k' v'] d IH]; simpl; [done|].
  destruct (decide (k' = k)) as [->|Hne].
  - intros [= ->]. left.
  - intros H. right. by apply IH.
Qed.

Lemma elem_of_amounts_at p ds d v :
  d ∈ ds -> dict_get d p = Some v -> v ∈ amounts_at p ds.
Proof. intros Hd Hv. apply list_elem_of_omap. by exists d. Qed.

Lemma amounts_at_nonneg p ds :
  Forall nonneg_record ds -> Forall nonneg (amounts_at p ds).
Proof.
  intros Hds. apply Forall_forall. intros v (d & Hd & Hv)%list_elem_of_omap.
  rewrite Forall_forall in Hds. specialize (Hds d Hd).
  unfold nonneg_record in Hds. rewrite Forall_forall in Hds.
  by eapply Hds, dict_get_values.
Qed.

(** ** The Sum aggregator *)

Lemma sum_step_get t k a p :
  dict_get (sum_step t (k, a)) p =
    if decide (k = p)
    then Some (match dict_get t k with Some old => old + a | None => a end)
    else dict_get t p.
Proof.
  unfold sum_step.
  destruct (dict_get t k) as [old|] eqn:Hk; simpl;
    (destruct (decide (k = p)) as [->|Hne];
     [by rewrite dict_get_set_eq | by rewrite dict_get_set_ne]).
Qed.

Lemma sum_step_keys t k a p :
  p ∈ keys (sum_step t (k, a)) <-> p = k \/ p ∈ keys t.
Proof. unfold sum_step. destruct (dict_get t k); apply elem_of_keys_dict_set. Qed.

Lemma sum_step_wf t item : wf_dict t -> wf_dict (sum_step t item).
Proof.
  destruct item as [k a]. unfold sum_step.
  destruct (dict_get t k); apply wf_dict_set.
Qed.

Lemma sum_items_keys items t p :
  p ∈ keys (foldl sum_step t items) <-> p ∈ keys t \/ p ∈ keys items.
Proof.
  revert t. induction items as [|[k a] items IH]; intros t; cbn [foldl].
  - split; [auto | intros [?|H]; [done | by apply elem_of_nil in H]].
  - rewrite IH, sum_step_keys, keys_cons, elem_of_cons. tauto.
Qed.

Lemma sum_items_wf items t : wf_dict t -> wf_dict (foldl sum_step t items).
Proof.
  revert t. induction items as [|item items IH]; intros t Ht; cbn [foldl]; [done|].
  by apply IH, sum_step_wf.
Qed.

(** The inner loop adds the amount a mapping has at a key to the running
    total, or stores it when there is no total yet; with no amount at the
    key it leaves the total alone. *)
Lemma sum_items_get items t p :
  wf_dict items ->
  dict_get (foldl sum_step t items) p
  = match dict_get items p with
    | Some a => Some (match dict_get t p with Some old => old + a | None => a end)
    | None => dict_get t p
    end.
Proof.
  revert t. induction items as [|[k a] items IH]; intros t; [done|].
  intros [Hk Hitems]%NoDup_cons. cbn [foldl dict_get]. rewrite IH by done.
  rewrite sum_step_get. destruct (decide (k = p)) as [->|Hne]; [|done].
  by rewrite (proj2 (dict_get_None items p)).
Qed.

Lemma sum_from_cons t d ds : sum_from t (d :: ds) = sum_from (foldl sum_step t d) ds.
Proof. reflexivity. Qed.

Lemma sum_from_keys ds t p :
  p ∈ keys (sum_from t ds) <-> p ∈ keys t \/ exists d, d ∈ ds /\ p ∈ keys d.
Proof.
  revert t. induction ds as [|d ds IH]; intros t.
  - split; [auto | intros [?|(d & H & _)]; [done | by apply elem_of_nil in H]].
  - rewrite sum_from_cons, IH, sum_items_keys. split.
    + intros [[?|?]|(d' & ? & ?)]; [by left | right; exists d | right; exists d'];
        split; try done; [left | by right].
    + intros [?|(d' & [->|?]%elem_of_cons & ?)]; [by left; left | by left; right |].
      right. by exists d'.
Qed.

Lemma sum_from_wf ds t : wf_dict t -> wf_dict (sum_from t ds).
Proof.
  revert t. induction ds as [|d ds IH]; intros t Ht; [done|].
  rewrite sum_from_cons. by apply IH, sum_items_wf.
Qed.

(** The outer loop adds the amounts the mappings have at a key, from left to
    right, onto the running total, or onto the first of them. *)
Lemma sum_from_get ds t p :
  Forall wf_dict ds ->
  dict_get (sum_from t ds) p
  = match dict_get t p with
    | Some old => Some (add_in_order old (amounts_at p ds))
    | None => sum_in_order (amounts_at p ds)
    end.
Proof.
  intros Hds. revert t. induction Hds as [|d ds Hd Hds IH]; intros t.
  - cbn [sum_from foldl]. by destruct (dict_get t p).
  - rewrite sum_from_cons, IH, sum_items_get, amounts_at_cons by done.
    by destruct (dict_get d p), (dict_get t p).
Qed.

Lemma sum_emissions_keys ds p :
  p ∈ keys (sum_emissions ds) <-> exists d, d ∈ ds /\ p ∈ keys d.
Proof.
  change (sum_emissions ds) with (sum_from [] ds). rewrite sum_from_keys.
  split; [|auto]. intros [H|H]; [by apply elem_of_nil in H | done].
Qed.

Lemma sum_emissions_get ds p :
  Forall wf_dict ds ->
  dict_get (sum_emissions ds) p = sum_in_order (amounts_at p ds).
Proof. apply (sum_from_get ds []). Qed.

Lemma sum_emissions_wf ds : wf_dict (sum_emissions ds).
Proof. apply (sum_from_wf ds []), NoDup_nil_2. Qed.

Lemma sum_items_disjoint items t :
  wf_dict items -> (forall k, k ∈ keys items -> k ∉ keys t) ->
  foldl sum_step t items = t ++ items.
Proof.
  revert t. induction items as [|[k a] items IH]; intros t Hwf Hdisj; cbn [foldl].
  - by rewrite app_nil_r.
  - apply NoDup_cons in Hwf as [Hk Hwf].
    assert (Hkt : k ∉ keys t) by (apply Hdisj; left).
    unfold sum_step at 2. rewrite (proj2 (dict_get_None t k)) by done.
    rewrite dict_set_fresh by done. rewrite IH; [by rewrite <-app_assoc|done|].
    intros k' Hk'. unfold keys. rewrite fmap_app, elem_of_app.
    intros [Hin|Hin%list_elem_of_singleton].
    + by apply (Hdisj k'); [right|].
    + simpl in Hin. by subst.
Qed.

(** The store version computes [sum_emissions] into a new object and writes
    nowhere else. *)
Lemma store_iter_sum_write l items h t :
  Store.iter items (<[l := t]> h) (Store.sum_write l)
  = Some (<[l := foldl sum_step t items]> h).
Proof.
  revert t. induction items as [|[k a] items IH]; intros t; [done|].
  cbn [Store.iter foldl Store.sum_write]. rewrite lookup_insert_eq.
  cbn [mbind option_bind].
  assert (Hstep := eq_refl (sum_step t (k, a))). unfold sum_step at 2 in Hstep.
  destruct (dict_get t k) as [old|]; rewrite Hstep; cbn [mbind option_bind];
    by rewrite insert_insert_eq, IH.
Qed.

Lemma store_sum_emissions_eq (h : gmap positive (dict float)) args ds :
  Forall2 (fun a d => h !! a = Some d) args ds ->
  Store.sum_emissions args h
  = Some (fresh (dom h), <[fresh (dom h) := sum_emissions ds]> h).
Proof.
  intros Hargs. unfold Store.sum_emissions, Store.new_dict.
  change (sum_emissions ds) with (sum_from [] ds).
  set (l := fresh (dom h)).
  assert (Hl : h !! l = None) by apply not_elem_of_dom, is_fresh.
  generalize ([] : dict float) as t.
  induction Hargs as [|a d args ds Ha Hargs IH]; intros t; [done|].
  cbn [Store.iter]. rewrite lookup_insert_ne by (intros ->; congruence).
  rewrite Ha. cbn [mbind option_bind]. rewrite store_iter_sum_write.
  cbn [mbind option_bind]. rewrite sum_from_cons. apply IH.
Qed.

(** ** Scenario consolidation *)

Lemma add_amount_in total k a old :
  dict_get total k = Some old ->
  add_amount total (k, a) = Ok (dict_set total k (old + a)).
Proof. intros Hold. unfold add_amount, getitem. by rewrite Hold. Qed.

Lemma add_amount_notin total k a :
  k ∉ keys total -> add_amount total (k, a) = Raise (KeyError k).
Proof.
  intros Hk%dict_get_None. unfold add_amount, getitem. by rewrite Hk.
Qed.

(** Adding one record to the totals: either every key of the record is a key
    of the totals and its amounts are added, or the first key that is not
    raises [KeyError]. *)
Lemma add_record_spec total d :
  (Forall (fun k => k ∈ keys total) (keys d) /\
   exists total', for_each d total add_amount = Ok total' /\
     keys total' = keys total /\
     (wf_dict d -> forall p old, dict_get total p = Some old ->
        dict_get total' p
        = Some (match dict_get d p with Some a => old + a | None => old end)))
  \/ (exists k, k ∈ keys d /\ (k ∉ keys total) /\
        for_each d total add_amount = Raise (KeyError k)).
Proof.
  revert total. induction d as [|[k a] d IH]; intros total.
  - left. split; [constructor|]. by exists total.
  - cbn [for_each]. destruct (decide (k ∈ keys total)) as [Hk|Hk].
    + pose proof Hk as [old Hold]%dict_get_is_Some.
      rewrite (add_amount_in _ _ _ old) by done. cbn [mbind result_bind].
      set (t1 := dict_set total k (old + a)).
      assert (Ht1 : keys t1 = keys total) by (apply keys_dict_set_in, Hk).
      destruct (IH t1) as [(Hall & total' & Hrun & Hkeys & Hamt)|(k' & Hk' & Hnot & Hrun)].
      * left. split; [constructor; [done | by rewrite <-Ht1]|].
        exists total'. split_and!; [done | congruence |].
        intros [Hfresh Hd]%NoDup_cons p old' Hp. cbn [dict_get].
        destruct (decide (k = p)) as [->|Hne].
        -- assert (old' = old) as -> by congruence.
           rewrite (Hamt Hd p (old + a)) by apply dict_get_set_eq.
           by rewrite (proj2 (dict_get_None d p)).
        -- apply Hamt; [done|]. unfold t1. by rewrite dict_get_set_ne.
      * right. exists k'. split_and!; [by right | by rewrite <-Ht1 | done].
    + right. exists k. split_and!; [left | done |].
      by rewrite add_amount_notin.
Qed.

(** Adding a list of records, one after the other. *)
Lemma add_records_spec total ds :
  (Forall (fun d => Forall (fun k => k ∈ keys total) (keys d)) ds /\
   exists total',
     for_each ds total (fun total d => for_each d total add_amount) = Ok total' /\
     keys total' = keys total /\
     (Forall wf_dict ds -> forall p old, dict_get total p = Some old ->
        dict_get total' p = Some (add_in_order old (amounts_at p ds))))
  \/ (exists k d, d ∈ ds /\ k ∈ keys d /\ (k ∉ keys total) /\
        for_each ds total (fun total d => for_each d total add_amount)
        = Raise (KeyError k)).
Proof.
  revert total. induction ds as [|d ds IH]; intros total.
  - left. split; [constructor|]. by exists total.
  - cbn [for_each].
    destruct (add_record_spec total d)
      as [(Hd & t1 & Hrun1 & Hkeys1 & Hamt1)|(k & Hk & Hnot & Hrun1)];
      rewrite Hrun1; cbn [mbind result_bind].
    + destruct (IH t1) as [(Hall & total' & Hrun & Hkeys & Hamt)
                          |(k & d' & Hd' & Hk & Hnot & Hrun)].
      * left. split.
        { constructor; [done|]. by rewrite <-Hkeys1. }
        exists total'. split_and!; [done | congruence |].
        intros [Hwf Hwfs]%Forall_cons p old Hp.
        rewrite (Hamt Hwfs p _ (Hamt1 Hwf p old Hp)), amounts_at_cons.
        by destruct (dict_get d p).
      * right. exists k, d'. split_and!; [by right | done | congruence | done].
    + right. exists k, d. split_and!; [left | done..].
Qed.

Lemma for_each_entries total (additional_emissions : dict entry) :
  for_each additional_emissions total
    (fun total_emissions '(key, value) =>
       match value with
       | Nested value => for_each value total_emissions add_amount
       | Scalar value => add_amount total_emissions ("CO2", value)
       end)
  = for_each (entry_record <$> values additional_emissions) total
      (fun total d => for_each d total add_amount).
Proof.
  revert total.
  induction additional_emissions as [|[key [v|d]] a IH]; intros total; [done|..];
    cbn [for_each values fmap list_fmap snd entry_record].
  - destruct (add_amount total ("CO2", v)); cbn [mbind result_bind]; [apply IH|done].
  - destruct (for_each d total add_amount); cbn [mbind result_bind]; [apply IH|done].
Qed.

Lemma consolidate_scenario_emissions_eq transport_emissions additional_emissions :
  consolidate_scenario_emissions transport_emissions additional_emissions
  = for_each (contributions transport_emissions additional_emissions) zero_totals
      (fun total d => for_each d total add_amount).
Proof.
  unfold consolidate_scenario_emissions, contributions.
  rewrite for_each_app. fold zero_totals.
  destruct (for_each (values transport_emissions) zero_totals _);
    cbn [mbind result_bind]; [apply for_each_entries | done].
Qed.

Lemma zero_totals_get p : p ∈ pollutants -> dict_get zero_totals p = Some 0.
Proof.
  intros Hp. unfold pollutants in Hp.
  repeat (apply elem_of_cons in Hp as [->|Hp]; [reflexivity|]).
  by apply elem_of_nil in Hp.
Qed.

Lemma foreign_key_not_tracked d : foreign_key d <-> ~ only_tracked d.
Proof.
  unfold foreign_key, only_tracked. split.
  - apply (Exists_not_Forall (fun k => k ∈ pollutants)).
  - apply (not_Forall_Exists (fun k => k ∈ pollutants)).
Qed.

Lemma contributions_Forall (P : dict float -> Prop) t a :
  (forall v, P [("CO2", v)]) ->
  Forall P (values t ++ nested_records a) -> Forall P (contributions t a).
Proof.
  intros Hscalar [Ht Ha]%Forall_app. apply Forall_app. split; [done|].
  clear Ht. unfold nested_records in Ha.
  induction (values a) as [|[v|d] es IH]; cbn [fmap list_fmap entry_record].
  - constructor.
  - constructor; [apply Hscalar | apply IH, Ha].
  - cbn [omap list_omap] in Ha. apply Forall_cons in Ha as [Hd Ha].
    constructor; [done | by apply IH].
Qed.

Lemma contributions_Exists (P : dict float -> Prop) t a :
  (forall v, ~ P [("CO2", v)]) ->
  Exists P (contributions t a) -> Exists P (values t ++ nested_records a).
Proof.
  intros Hscalar [Ht|Ha]%Exists_app; apply Exists_app; [by left|right].
  unfold nested_records.
  induction (values a) as [|[v|d] es IH];
    cbn [fmap list_fmap entry_record omap list_omap] in *.
  - by apply Exists_nil in Ha.
  - apply Exists_cons in Ha as [Hv|Ha]; [by apply Hscalar in Hv | by apply IH].
  - apply Exists_cons in Ha as [Hd|Ha]; [by left | right; by apply IH].
Qed.

Lemma contributions_Forall_inv (P : dict float -> Prop) t a :
  Forall P (contributions t a) -> Forall P (values t ++ nested_records a).
Proof.
  intros [Ht Ha]%Forall_app. apply Forall_app. split; [done|].
  clear Ht. unfold nested_records.
  induction (values a) as [|[v|d] es IH];
    cbn [fmap list_fmap entry_record omap list_omap] in *.
  - constructor.
  - apply Forall_cons in Ha as [_ Ha]. by apply IH.
  - apply Forall_cons in Ha as [Hd Ha]. constructor; [done | by apply IH].
Qed.

Lemma scalar_record_tracked v : tracked_record [("CO2", v)].
Proof.
  split; [wf_closed|]. repeat constructor.
Qed.

Lemma scalar_record_not_foreign v : ~ foreign_key [("CO2", v)].
Proof.
  rewrite foreign_key_not_tracked. intros H. apply H.
  apply scalar_record_tracked.
Qed.

Lemma record3_tracked a b c : tracked_record (record3 a b c).
Proof. split; [wf_closed | repeat constructor]. Qed.

(** On Pollutant Emission Records consolidation returns a record of the three
    gases; the amount of a gas is the running total, from 0, of the amounts
    of that gas in the records it visits, in the order it visits them. *)
Lemma consolidate_tracked t a :
  Forall tracked_record (values t ++ nested_records a) ->
  exists r,
    consolidate_scenario_emissions t a = Ok r /\
    keys r = pollutants /\
    forall p, p ∈ pollutants ->
      dict_get r p = Some (add_in_order 0 (amounts_at p (contributions t a))).
Proof.
  intros Hrecords. rewrite consolidate_scenario_emissions_eq.
  apply (contributions_Forall _ _ _ scalar_record_tracked) in Hrecords.
  destruct (add_records_spec zero_totals (contributions t a))
    as [(_ & r & Hrun & Hkeys & Hamt)|(k & d & Hd & Hk & Hnot & _)].
  - exists r. split_and!; [done..|]. intros p Hp.
    apply Hamt; [|by apply zero_totals_get].
    eapply Forall_impl; [done | by intros ? [? _]].
  - exfalso. apply Hnot.
    rewrite Forall_forall in Hrecords. destruct (Hrecords d Hd) as [_ Hall].
    unfold only_tracked in Hall. rewrite Forall_forall in Hall. by apply Hall.
Qed.

(** Consolidation either succeeds, and then every record it was given has
    tracked keys only, or raises [KeyError] for a key that is not tracked,
    and then some record has such a key. *)
Lemma consolidate_cases t a :
  (Forall only_tracked (values t ++ nested_records a) /\
   exists r, consolidate_scenario_emissions t a = Ok r /\ keys r = pollutants)
  \/ (Exists foreign_key (values t ++ nested_records a) /\
      exists k, (k ∉ pollutants) /\
        consolidate_scenario_emissions t a = Raise (KeyError k)).
Proof.
  rewrite consolidate_scenario_emissions_eq.
  destruct (add_records_spec zero_totals (contributions t a))
    as [(Hall & r & Hrun & Hkeys & _)|(k & d & Hd & Hk & Hnot & Hrun)].
  - left. split; [|by exists r].
    by apply contributions_Forall_inv.
  - right. split; [|by exists k].
    apply contributions_Exists; [apply scalar_record_not_foreign|].
    apply Exists_exists. exists d. split; [done|].
    apply Exists_exists. by exists k.
Qed.

Lemma tracked_not_foreign ds :
  Forall only_tracked ds -> Exists foreign_key ds -> False.
Proof.
  intros Hall (d & Hd & Hforeign)%Exists_exists.
  apply foreign_key_not_tracked in Hforeign. apply Hforeign.
  rewrite Forall_forall in Hall. by apply Hall.
Qed.

(** ** The CO2-equivalent conversion *)

(** The first of the three lookups of [calculate_co2_equivalent] that fails
    decides its result. *)
Lemma calculate_co2_equivalent_cases d :
  (Forall (fun p => p ∈ keys d) pollutants /\
   is_Ok (calculate_co2_equivalent d))
  \/ (exists k, k ∈ pollutants /\ (k ∉ keys d) /\
        calculate_co2_equivalent d = Raise (KeyError k)).
Proof.
  unfold calculate_co2_equivalent, getitem.
  destruct (dict_get d "CO2") as [co2|] eqn:H1; cbn [mbind result_bind];
    [destruct (dict_get d "CH4") as [ch4|] eqn:H2; cbn [mbind result_bind];
     [destruct (dict_get d "N2O") as [n2o|] eqn:H3; cbn [mbind result_bind]|]|].
  - left. split; [|by eexists].
    repeat constructor; apply dict_get_is_Some; by eexists.
  - right. exists "N2O". split_and!; [repeat constructor | by apply dict_get_None | done].
  - right. exists "CH4". split_and!; [repeat constructor | by apply dict_get_None | done].
  - right. exists "CO2". split_and!; [repeat constructor | by apply dict_get_None | done].
Qed.

(** ** The scenario composer *)

(** One statement of the composer followed by the rest of its body: a
    division, or a call of a leg calculator. *)
Lemma bind_pydiv_nonzero {B} x y (rest : float -> result B) :
  (y =? 0) = false -> (x // y ≫= rest) = rest (x / y).
Proof. intros Hy. by rewrite pydiv_nonzero. Qed.

Lemma bind_pydiv_zero {B} x y (rest : float -> result B) :
  (y =? 0) = true -> (x // y ≫= rest) = Raise ZeroDivisionError.
Proof. intros Hy. by rewrite pydiv_zero. Qed.

Lemma bind_tanker_emissions {B} miles cargo n (rest : dict float -> result B) :
  (calculate_tanker_emissions miles cargo n ≫= rest)
  = rest (tanker_record miles cargo n).
Proof. by rewrite calculate_tanker_emissions_eq. Qed.

Lemma bind_truck_emissions {B} miles cargo quantity (rest : dict float -> result B) :
  (calculate_truck_emissions miles cargo quantity ≫= rest)
  = rest (truck_record miles cargo quantity).
Proof. by rewrite calculate_truck_emissions_eq. Qed.

Ltac composer_step :=
  first [ rewrite bind_pydiv_nonzero by (assumption || reflexivity)
        | rewrite bind_tanker_emissions
        | rewrite bind_truck_emissions ];
  cbv beta.
Ltac composer_unfold :=
  unfold transportation_scenario_emissions; cbv beta zeta.

Lemma legs_total_intro miles1 w1 n1 miles2 w2 n2 miles3 w3 n3 :
  legs_total (calculate_tanker_emissions miles1 w1 n1)
             (calculate_tanker_emissions miles2 w2 n2)
             (calculate_truck_emissions miles3 w3 n3)
             (sum_emissions [tanker_record miles1 w1 n1;
                             tanker_record miles2 w2 n2;
                             truck_record miles3 w3 n3]).
Proof. by eexists _, _, _. Qed.

(** The composer on inputs that make no divisor zero. *)
Lemma transportation_scenario_emissions_eq
    target_solar turbine_power target_wind target_bess_power
    target_bess_energy target_diesel :
  (turbine_power =? 0) = false ->
  (target_wind / turbine_power * 7 =? 0) = false ->
  (target_bess_energy / 1240 =? 0) = false ->
  transportation_scenario_emissions target_solar turbine_power target_wind
    target_bess_power target_bess_energy target_diesel
  = Ok [("wind_turbines_transport",
         component_total (target_wind / turbine_power * 19.8) 1030
           (target_wind / turbine_power * 19.8
            / (target_wind / turbine_power * 7))
           (target_wind / turbine_power * 7));
        ("pv_panels_transport",
         component_total (target_solar * 160 / 907185) 1030
           (target_solar * 160 / 907185 / 9) 9);
        ("bess_units_transport",
         component_total
           (target_bess_energy / 1240 * (18000 / 1000)) 100
           (target_bess_energy / 1240 * (18000 / 1000)
            / (target_bess_energy / 1240))
           (target_bess_energy / 1240));
        ("diesel_transport",
         component_total (target_diesel * 6.5 / 2000) 1030
           (target_diesel * 6.5 / 2000 / 9) 9)].
Proof.
  intros Hpower Hwind Hbess. composer_unfold. repeat composer_step.
  reflexivity.
Qed.

(** The composer on inputs that make a divisor zero: the turbine power, the
    number of wind trucks or the number of BESS units. *)
Lemma transportation_scenario_emissions_zero
    target_solar turbine_power target_wind target_bess_power
    target_bess_energy target_diesel :
  (turbine_power =? 0) = true
  \/ (target_wind / turbine_power * 7 =? 0) = true
  \/ (target_bess_energy / 1240 =? 0) = true ->
  transportation_scenario_emissions target_solar turbine_power target_wind
    target_bess_power target_bess_energy target_diesel
  = Raise ZeroDivisionError.
Proof.
  intros Hcase. composer_unfold.
  destruct (turbine_power =? 0) eqn:Hpower; [by apply bind_pydiv_zero|].
  destruct (target_wind / turbine_power * 7 =? 0) eqn:Hwind.
  { repeat composer_step. by apply bind_pydiv_zero. }
  destruct Hcase as [?|[?|Hbess]]; [done..|].
  repeat composer_step. by apply bind_pydiv_zero.
Qed.

Lemma component_total_keys cargo truck_miles per_truck trucks :
  keys (component_total cargo truck_miles per_truck trucks) = pollutants.
Proof. reflexivity. Qed.

Lemma component_total_tracked cargo truck_miles per_truck trucks :
  tracked_record (component_total cargo truck_miles per_truck trucks).
Proof. apply (record3_tracked _ _ _). Qed.

Lemma component_total_not_negative cargo truck_miles per_truck trucks :
  not_negative cargo -> not_negative truck_miles ->
  not_negative per_truck -> not_negative trucks ->
  not_negative_record (component_total cargo truck_miles per_truck trucks).
Proof.
  intros Hc Hm Hp Ht.
  change (component_total cargo truck_miles per_truck trucks)
    with (record3
            (tanker_grams 262.9991694 6900 cargo 1
             + tanker_grams 262.9991694 2415 (cargo / 2) 2
             + truck_grams 89.77044869 truck_miles per_truck trucks)
            (tanker_grams 0.293135661 6900 cargo 1
             + tanker_grams 0.293135661 2415 (cargo / 2) 2
             + truck_grams 0.109408298 truck_miles per_truck trucks)
            (tanker_grams 0.006037729 6900 cargo 1
             + tanker_grams 0.006037729 2415 (cargo / 2) 2
             + truck_grams 0.000355609 truck_miles per_truck trucks)).
  unfold not_negative_record, record3, tanker_grams, truck_grams.
  cbn [values fmap list_fmap snd].
  repeat (apply Forall_cons; split; [not_negative|]).
  apply Forall_nil_2.
Qed.

(** ** The claims about the leg calculators *)

(** C1, as it fails: at [(1000, 20, 5)] the CH4 value the calculator returns
    is not the binary64 value of [f * ((684*w)/1e6 * m + 13567/1e6 * m) * q];
    the two differ in the last digit. *)
Lemma truck_formula_not_exact :
  calculate_truck_emissions 1000 20 5
  = Ok [("CO2", 12229.877077282148); ("CH4", 14.905239478030001);
        ("N2O", 0.048446392115)]
  /\ spec_truck_grams 0.109408298 1000 20 5 = 14.905239478029999
  /\ 14.905239478030001 <> 14.905239478029999.
Proof. split_and!; [reflexivity | reflexivity | float_neq]. Qed.

(** C1, amended.  For all miles [m], cargo weight [w] and trip count [q],
    the truck leg calculator returns, for each gas, exactly the binary64 value
    of [(f * (684*w/138700) * 138700 / 1e6 * m
         + f * (13567/138700) * 138700 / 1e6 * m) * q],
    evaluated from left to right, with the fixed factor [f] of that gas; and
    [calculate_truck_emissions 1000 20 5] is the documented reference value
    for each factor. *)
Theorem truck_emissions_formula :
  (forall m w q,
     calculate_truck_emissions m w q =
       Ok [("CO2", truck_grams 89.77044869 m w q);
           ("CH4", truck_grams 0.109408298 m w q);
           ("N2O", truck_grams 0.000355609 m w q)])
  /\ calculate_truck_emissions 1000 20 5 =
       Ok [("CO2", spec_truck_reference 89.77044869);
           ("CH4", spec_truck_reference 0.109408298);
           ("N2O", spec_truck_reference 0.000355609)].
Proof. split; reflexivity. Qed.

(** C3. On every record that has the keys CO2, CH4 and N2O the conversion
    returns exactly [CO2*1 + CH4*29.8 + N2O*273]; on the documented record the
    result agrees with the reference computation, whose operands are the
    record's values rounded to two decimals, to within 0.06 (two parts in
    ten thousand million). *)
Theorem co2_equivalent_formula :
  (forall d co2 ch4 n2o,
     dict_get d "CO2" = Some co2 ->
     dict_get d "CH4" = Some ch4 ->
     dict_get d "N2O" = Some n2o ->
     calculate_co2_equivalent d
     = Ok (co2 * 1 + ch4 * 29.8 + n2o * 273))
  /\ exists v,
       calculate_co2_equivalent reference_record = Ok v /\
       (reference_co2_equivalent - 0.06 <? v) = true /\
       (v <? reference_co2_equivalent + 0.06) = true.
Proof.
  split.
  - intros d co2 ch4 n2o H1 H2 H3.
    unfold calculate_co2_equivalent, getitem. by rewrite H1, H2, H3.
  - eexists. split; [reflexivity|]. split; reflexivity.
Qed.

Lemma co2_equivalent_formula_witness :
  calculate_co2_equivalent [("N2O", 2); ("CO2", 10); ("CH4", 1)]
  = Ok (10 * 1 + 1 * 29.8 + 2 * 273).
Proof. by apply (proj1 co2_equivalent_formula). Defined.





(** C9. Every record returned by the truck, tanker, fuel-production and
    diesel-production calculators has exactly the keys CO2, CH4 and N2O,
    whatever the input. *)
Theorem leg_records_keys :
  (forall miles cargo quantity,
     exists r, calculate_truck_emissions miles cargo quantity = Ok r
               /\ keys r = pollutants)
  /\ (forall miles cargo tankers,
        exists r, calculate_tanker_emissions miles cargo tankers = Ok r
                  /\ keys r = pollutants)
  /\ (forall miles_ocean_tanker miles_truck,
        exists r, calculate_fuelused_emissions miles_ocean_tanker miles_truck = Ok r
                  /\ keys r = pollutants)
  /\ (forall gallons,
        exists r, calculate_emissions_from_diesel gallons = Ok r
                  /\ keys r = pollutants).
Proof.
  split_and!; intros.
  - rewrite calculate_truck_emissions_eq. by eexists.
  - rewrite calculate_tanker_emissions_eq. by eexists.
  - rewrite calculate_fuelused_emissions_eq. by eexists.
  - rewrite calculate_emissions_from_diesel_eq. by eexists.
Qed.

(** ** The claims about the aggregators *)

(** C5. Run on the addresses of well-formed mappings, [sum_emissions]
    returns a new mapping and leaves every mapping of the store, its inputs
    among them, as it was.  The keys of the result are the union of the keys
    of the inputs; its value at a key is the sum, taken from left to right,
    of the values at that key over the inputs that have it; and for two
    records [A] and [B] the value at every key present in either is
    [A[p] + B[p]], an absent entry contributing nothing. *)
Theorem sum_emissions_union_sum
    (h : gmap positive (dict float)) (args : list positive)
    (ds : list (dict float)) :
  Forall2 (fun a d => h !! a = Some d) args ds ->
  Forall wf_dict ds ->
  exists l r,
    Store.sum_emissions args h = Some (l, <[l := r]> h) /\
    h !! l = None /\
    (forall a d, h !! a = Some d -> <[l := r]> h !! a = Some d) /\
    r = sum_emissions ds /\
    wf_dict r /\
    (forall p, p ∈ keys r <-> exists d, d ∈ ds /\ p ∈ keys d) /\
    (forall p, dict_get r p = sum_in_order (amounts_at p ds)) /\
    (forall A B p, ds = [A; B] ->
       dict_get r p
       = match dict_get A p, dict_get B p with
         | Some a, Some b => Some (a + b)
         | Some a, None => Some a
         | None, Some b => Some b
         | None, None => None
         end).
Proof.
  intros Hargs Hwf.
  assert (Hl : h !! fresh (dom h) = None) by apply not_elem_of_dom, is_fresh.
  exists (fresh (dom h)), (sum_emissions ds). split_and!.
  - by apply store_sum_emissions_eq.
  - done.
  - intros a d Ha. rewrite lookup_insert_ne; [done|]. intros <-. congruence.
  - done.
  - apply sum_emissions_wf.
  - apply sum_emissions_keys.
  - intros p. by apply sum_emissions_get.
  - intros A B p ->. rewrite sum_emissions_get by done.
    rewrite !amounts_at_cons.
    by destruct (dict_get A p), (dict_get B p).
Qed.

Lemma sum_emissions_union_sum_witness :
  let A := [("CO2", 100); ("NOx", 50)] in
  let B := [("CO2", 200); ("SOx", 30)] in
  let h : gmap positive (dict float) := {[ 1%positive := A; 2%positive := B ]} in
  exists l r,
    Store.sum_emissions [1%positive; 2%positive] h = Some (l, <[l := r]> h) /\
    h !! l = None /\
    (forall a d, h !! a = Some d -> <[l := r]> h !! a = Some d) /\
    r = sum_emissions [A; B] /\
    wf_dict r /\
    (forall p, p ∈ keys r <-> exists d, d ∈ [A; B] /\ p ∈ keys d) /\
    (forall p, dict_get r p = sum_in_order (amounts_at p [A; B])) /\
    (forall A' B' p, [A; B] = [A'; B'] ->
       dict_get r p
       = match dict_get A' p, dict_get B' p with
         | Some a, Some b => Some (a + b)
         | Some a, None => Some a
         | None, Some b => Some b
         | None, None => None
         end).
Proof.
  intros A B h.
  apply (sum_emissions_union_sum h [1%positive; 2%positive] [A; B]).
  - repeat constructor.
  - repeat constructor; wf_closed.
Defined.

(** The docstring's example of [sum_emissions]. *)
Example sum_emissions_docstring :
  sum_emissions [[("CO2", 100); ("NOx", 50)]; [("CO2", 200); ("SOx", 30)]]
  = [("CO2", 300); ("NOx", 50); ("SOx", 30)].
Proof. reflexivity. Qed.

(** C2, as it fails: on the documented example the N2O total is
    [0.15000000000000002], the binary64 value of [0 + 0.1 + 0.05], and not
    [0.15]. *)
Lemma consolidate_example_not_exact :
  consolidate_scenario_emissions
    [("A", [("CO2", 10); ("CH4", 1); ("N2O", 0.1)])]
    [("solar", Scalar 50);
     ("diesel", Nested [("CO2", 5); ("CH4", 0.5); ("N2O", 0.05)])]
  = Ok [("CO2", 65); ("CH4", 1.5); ("N2O", 0.15000000000000002)]
  /\ 0.15000000000000002 <> 0.15.
Proof. split; [reflexivity | float_neq]. Qed.

(** C2, amended.  For every transport mapping and every embodied-emissions
    mapping whose records are Pollutant Emission Records, consolidation
    returns one record with the three gases.  The value of a gas is the
    running total that starts at 0 and to which binary64 addition adds, in
    the order consolidation visits them, every transport value and every
    nested-record value of that gas and, for CO2 alone, every bare number; on
    the documented example the result is
    [{CO2: 65, CH4: 1.5, N2O: 0.15000000000000002}]. *)
Theorem consolidate_adds_pollutant_wise :
  (forall transport_emissions additional_emissions,
     Forall tracked_record
       (values transport_emissions ++ nested_records additional_emissions) ->
     exists r,
       consolidate_scenario_emissions transport_emissions additional_emissions
       = Ok r /\
       keys r = pollutants /\
       forall p, p ∈ pollutants ->
         dict_get r p
         = Some (add_in_order 0
                   (amounts_at p
                      (contributions transport_emissions additional_emissions))))
  /\ consolidate_scenario_emissions
       [("A", [("CO2", 10); ("CH4", 1); ("N2O", 0.1)])]
       [("solar", Scalar 50);
        ("diesel", Nested [("CO2", 5); ("CH4", 0.5); ("N2O", 0.05)])]
     = Ok [("CO2", 65); ("CH4", 1.5); ("N2O", 0.15000000000000002)].
Proof.
  split; [|reflexivity].
  intros t a Hrecords. by apply consolidate_tracked.
Qed.

Lemma consolidate_adds_pollutant_wise_witness :
  let t := [("A", [("CO2", 10); ("CH4", 1)])] in
  let a := [("solar", Scalar 50); ("diesel", Nested [("N2O", 2)])] in
  exists r,
    consolidate_scenario_emissions t a = Ok r /\
    keys r = pollutants /\
    forall p, p ∈ pollutants ->
      dict_get r p = Some (add_in_order 0 (amounts_at p (contributions t a))).
Proof.
  intros t a. apply (proj1 consolidate_adds_pollutant_wise).
  repeat constructor; try wf_closed; by vm_compute.
Defined.

(** C6, as it fails: a transport record without CH4 and N2O is consolidated
    without any error. *)
Lemma consolidate_missing_key_succeeds :
  let record := [("CO2", 10)] in
  ("CH4" ∉ keys record) /\
  consolidate_scenario_emissions [("A", record)] []
  = Ok [("CO2", 10); ("CH4", 0); ("N2O", 0)].
Proof.
  split.
  - by vm_compute; intros [[=]|H%elem_of_nil]%elem_of_cons.
  - reflexivity.
Qed.

(** C6, amended.  The CO2-equivalent conversion raises [KeyError] exactly
    when its record lacks one of CO2, CH4, N2O, and returns when all three
    are present.  Consolidation does not fail on a missing gas: it returns
    whenever the keys of every record are tracked gases. *)
Theorem missing_key_errors :
  (forall d,
     (exists p, p ∈ pollutants /\ p ∉ keys d)
     <-> exists k, calculate_co2_equivalent d = Raise (KeyError k))
  /\ (forall d,
        Forall (fun p => p ∈ keys d) pollutants
        <-> is_Ok (calculate_co2_equivalent d))
  /\ (forall transport_emissions additional_emissions,
        Forall only_tracked
          (values transport_emissions ++ nested_records additional_emissions) ->
        is_Ok (consolidate_scenario_emissions
                 transport_emissions additional_emissions)).
Proof.
  split_and!.
  - intros d. destruct (calculate_co2_equivalent_cases d)
      as [[Hall [v Hv]]|(k & Hk & Hnot & Hrun)].
    + rewrite Hv. split; [|by intros [? [=]]].
      intros (p & Hp & Hnot). rewrite Forall_forall in Hall. by apply Hall in Hp.
    + split; [by exists k | by exists k].
  - intros d. destruct (calculate_co2_equivalent_cases d)
      as [[Hall Hok]|(k & Hk & Hnot & Hrun)]; [done|].
    rewrite Hrun. split; [|by intros [? [=]]].
    intros Hall. rewrite Forall_forall in Hall. by apply Hall in Hk.
  - intros t a Hall.
    destruct (consolidate_cases t a) as [[_ (r & Hr & _)]|[Hex _]]; [by exists r|].
    by destruct (tracked_not_foreign _ Hall Hex).
Qed.

Lemma missing_key_errors_witness :
  is_Ok (consolidate_scenario_emissions
           [("A", [("CH4", 1)])] [("diesel", Nested [("N2O", 2)])]).
Proof.
  apply (proj2 (proj2 missing_key_errors)).
  repeat constructor; by vm_compute.
Defined.

(** C10. Consolidation raises [KeyError] whenever a transport record or a
    nested record of the embodied-emissions mapping has a key outside CO2,
    CH4, N2O; it returns only when every such key is one of the three. *)
Theorem consolidate_foreign_key_raises transport_emissions additional_emissions :
  (Exists foreign_key
     (values transport_emissions ++ nested_records additional_emissions) ->
   exists k, (k ∉ pollutants) /\
     consolidate_scenario_emissions transport_emissions additional_emissions
     = Raise (KeyError k))
  /\ (is_Ok (consolidate_scenario_emissions
               transport_emissions additional_emissions) ->
      Forall only_tracked
        (values transport_emissions ++ nested_records additional_emissions)).
Proof.
  destruct (consolidate_cases transport_emissions additional_emissions)
    as [[Hall Hok]|[Hex (k & Hk & Hrun)]].
  - split; [|done]. intros Hex. by destruct (tracked_not_foreign _ Hall Hex).
  - split; [by exists k|]. rewrite Hrun. by intros [? [=]].
Qed.

Lemma consolidate_foreign_key_raises_witness :
  exists k, (k ∉ pollutants) /\
    consolidate_scenario_emissions
      [("A", [("CO2", 10); ("NOx", 3)])] [("solar", Scalar 50)]
    = Raise (KeyError k).
Proof.
  apply (proj1 (consolidate_foreign_key_raises
                  [("A", [("CO2", 10); ("NOx", 3)])]
                  [("solar", Scalar 50)])).
  apply Exists_cons_hd. apply Exists_cons_tl, Exists_cons_hd.
  not_tracked.
Defined.

(** ** The claims about the scenario composer *)

(** C4, as it fails: with a zero turbine power the composer returns no
    mapping at all. *)
Lemma composer_zero_turbine_power_no_mapping :
  transportation_scenario_emissions 5000 0 20000 500 10000 2000
  = Raise ZeroDivisionError.
Proof. reflexivity. Qed.

(** Non-zero inputs are not enough for the composer to return: the turbine
    count [1e-200 / 1e200] underflows to zero, and the division by the number
    of wind trucks raises. *)
Example composer_underflow_raises :
  transportation_scenario_emissions 5000 1e200 1e-200 500 10000 2000
  = Raise ZeroDivisionError.
Proof. reflexivity. Qed.

(** C4, amended.  For every scenario input for which the turbine power, the
    number of wind trucks and the number of BESS units the composer computes
    are non-zero, the composer returns a mapping of exactly four component
    totals, each the Sum aggregator applied to the component's legs: a
    full-cargo tanker leg with one tanker, a tanker leg with half the weight
    and two tankers, and a truck leg that splits the weight across the
    component's vehicle count. *)
Theorem composer_four_component_totals
    (target_solar turbine_power target_wind target_bess_power
     target_bess_energy target_diesel : float) :
  let num_turbines := target_wind / turbine_power in
  let wind_tons := num_turbines * 19.8 in
  let pv_tons := target_solar * 160 / 907185 in
  let num_bess_units := target_bess_energy / 1240 in
  let bess_tons := num_bess_units * (18000 / 1000) in
  let diesel_tons := target_diesel * 6.5 / 2000 in
  (turbine_power =? 0) = false ->
  (num_turbines * 7 =? 0) = false ->
  (num_bess_units =? 0) = false ->
  exists wind pv bess diesel,
    transportation_scenario_emissions target_solar turbine_power target_wind
      target_bess_power target_bess_energy target_diesel
    = Ok [("wind_turbines_transport", wind); ("pv_panels_transport", pv);
          ("bess_units_transport", bess); ("diesel_transport", diesel)] /\
    legs_total
      (calculate_tanker_emissions 6900 wind_tons 1)
      (calculate_tanker_emissions 2415 (wind_tons / 2) 2)
      (calculate_truck_emissions 1030
         (wind_tons / (num_turbines * 7)) (num_turbines * 7))
      wind /\
    legs_total
      (calculate_tanker_emissions 6900 pv_tons 1)
      (calculate_tanker_emissions 2415 (pv_tons / 2) 2)
      (calculate_truck_emissions 1030 (pv_tons / 9) 9)
      pv /\
    legs_total
      (calculate_tanker_emissions 6900 bess_tons 1)
      (calculate_tanker_emissions 2415 (bess_tons / 2) 2)
      (calculate_truck_emissions 100 (bess_tons / num_bess_units) num_bess_units)
      bess /\
    legs_total
      (calculate_tanker_emissions 6900 diesel_tons 1)
      (calculate_tanker_emissions 2415 (diesel_tons / 2) 2)
      (calculate_truck_emissions 1030 (diesel_tons / 9) 9)
      diesel.
Proof.
  intros num_turbines wind_tons pv_tons num_bess_units bess_tons diesel_tons
    Hpower Hwind Hbess.
  rewrite transportation_scenario_emissions_eq by done.
  do 4 eexists. split; [reflexivity|].
  split_and!; apply legs_total_intro.
Qed.

Lemma composer_four_component_totals_witness :
  exists wind pv bess diesel,
    transportation_scenario_emissions 5000 1000 20000 500 10000 2000
    = Ok [("wind_turbines_transport", wind); ("pv_panels_transport", pv);
          ("bess_units_transport", bess); ("diesel_transport", diesel)].
Proof.
  destruct (composer_four_component_totals 5000 1000 20000 500 10000 2000)
    as (wind & pv & bess & diesel & Hrun & _); [reflexivity..|].
  by exists wind, pv, bess, diesel.
Defined.

(** C7. A zero turbine power supplied to the composer, [0.0] or [-0.0],
    raises [ZeroDivisionError], whatever the other inputs: no mapping with
    NaN or infinite values is returned.  The BESS unit capacity is not an
    input: the BESS unit count is the energy target divided by the fixed
    1240, a division that raises for no input. *)
Theorem composer_zero_divisor_raises :
  (forall target_solar turbine_power target_wind target_bess_power
          target_bess_energy target_diesel,
     (turbine_power =? 0) = true ->
     transportation_scenario_emissions target_solar turbine_power target_wind
       target_bess_power target_bess_energy target_diesel
     = Raise ZeroDivisionError)
  /\ (forall target_bess_energy,
        target_bess_energy // 1240 = Ok (target_bess_energy / 1240)).
Proof.
  split.
  - intros. apply transportation_scenario_emissions_zero. by left.
  - intros. by apply pydiv_nonzero.
Qed.

Lemma composer_zero_divisor_raises_witness :
  transportation_scenario_emissions 5000 0 20000 500 10000 2000
  = Raise ZeroDivisionError
  /\ transportation_scenario_emissions 5000 (-0) 20000 500 10000 2000
     = Raise ZeroDivisionError.
Proof.
  split; by apply (proj1 composer_zero_divisor_raises).
Defined.

(** * Further properties of the code *)

(** ** The Sum aggregator, continued *)

(** X9. Summing one well-formed mapping returns that mapping, keys in the
    same order. *)
Theorem sum_emissions_single d : wf_dict d -> sum_emissions [d] = d.
Proof.
  intros Hd. unfold sum_emissions. cbn [foldl].
  rewrite sum_items_disjoint; [done..|]. intros k _. apply not_elem_of_nil.
Qed.

Lemma sum_emissions_single_witness :
  sum_emissions [[("NOx", 50); ("CO2", 100)]] = [("NOx", 50); ("CO2", 100)].
Proof. apply sum_emissions_single. wf_closed. Defined.

(** X23. The Sum of records without negative values is at least each of its
    parts: at every key, the value of the result is not below the value any
    input has at that key, whatever the rounding of the additions. *)
Theorem sum_emissions_at_least_each_part ds d p v :
  Forall wf_dict ds -> Forall nonneg_record ds ->
  d ∈ ds -> dict_get d p = Some v ->
  exists total,
    dict_get (sum_emissions ds) p = Some total /\ (v <=? total) = true.
Proof.
  intros Hwf Hnonneg Hd Hv. rewrite sum_emissions_get by done.
  pose proof (elem_of_amounts_at p ds d v Hd Hv) as Hin.
  pose proof (amounts_at_nonneg p ds Hnonneg) as Hall.
  destruct (amounts_at p ds) as [|a amounts]; [by apply elem_of_nil in Hin|].
  apply Forall_cons in Hall as [Ha Hall]. eexists. split; [reflexivity|].
  apply elem_of_cons in Hin as [->|Hin].
  - by apply add_in_order_ge_total.
  - by apply add_in_order_ge_amount.
Qed.

Lemma sum_emissions_at_least_each_part_witness :
  exists total,
    dict_get (sum_emissions [[("CO2", 0.1); ("NOx", 50)];
                             [("CO2", 0.2); ("SOx", 30)];
                             [("CO2", 0.3)]]) "CO2" = Some total
    /\ (0.2 <=? total) = true.
Proof.
  apply (sum_emissions_at_least_each_part _ [("CO2", 0.2); ("SOx", 30)]).
  - repeat constructor; wf_closed.
  - repeat constructor.
  - apply elem_of_cons. right. left.
  - reflexivity.
Defined.

(** ** The CO2-equivalent conversion, continued *)

(** X11. The conversion looks the gases up in the order CO2, CH4, N2O and
    reports the first one that is missing. *)
Theorem co2_equivalent_first_missing_key d :
  (dict_get d "CO2" = None ->
   calculate_co2_equivalent d = Raise (KeyError "CO2"))
  /\ (is_Some (dict_get d "CO2") -> dict_get d "CH4" = None ->
      calculate_co2_equivalent d = Raise (KeyError "CH4"))
  /\ (is_Some (dict_get d "CO2") -> is_Some (dict_get d "CH4") ->
      dict_get d "N2O" = None ->
      calculate_co2_equivalent d = Raise (KeyError "N2O")).
Proof.
  unfold calculate_co2_equivalent, getitem. split_and!.
  - by intros ->.
  - by intros [? ->] ->.
  - by intros [? ->] [? ->] ->.
Qed.

Lemma co2_equivalent_first_missing_key_witness :
  calculate_co2_equivalent [] = Raise (KeyError "CO2")
  /\ calculate_co2_equivalent [("N2O", 2); ("CO2", 10)]
     = Raise (KeyError "CH4")
  /\ calculate_co2_equivalent [("CH4", 1); ("CO2", 10)]
     = Raise (KeyError "N2O").
Proof.
  split_and!.
  - by apply (proj1 (co2_equivalent_first_missing_key [])).
  - by apply (proj1 (proj2 (co2_equivalent_first_missing_key
                              [("N2O", 2); ("CO2", 10)]))).
  - by apply (proj2 (proj2 (co2_equivalent_first_missing_key
                              [("CH4", 1); ("CO2", 10)]))).
Defined.

(** X12. The conversion reads the three gases and nothing else: two mappings
    that agree on CO2, CH4 and N2O are converted alike, whatever other keys
    they have and in whatever order. *)
Theorem co2_equivalent_reads_three_keys d d' :
  (forall p, p ∈ pollutants -> dict_get d p = dict_get d' p) ->
  calculate_co2_equivalent d = calculate_co2_equivalent d'.
Proof.
  intros Hsame. unfold calculate_co2_equivalent, getitem.
  by rewrite !Hsame by repeat constructor.
Qed.

Lemma co2_equivalent_reads_three_keys_witness :
  calculate_co2_equivalent [("NOx", 7); ("N2O", 2); ("CO2", 10); ("CH4", 1)]
  = calculate_co2_equivalent (record3 10 1 2).
Proof.
  apply co2_equivalent_reads_three_keys.
  intros p Hp. unfold pollutants in Hp.
  repeat (apply elem_of_cons in Hp as [->|Hp]; [reflexivity|]).
  by apply elem_of_nil in Hp.
Defined.

(** X13. On a record with the three gases and no negative value, the
    CO2-equivalent is at least the CO2 mass itself. *)
Theorem co2_equivalent_at_least_co2 d :
  Forall (fun p => p ∈ keys d) pollutants -> nonneg_record d ->
  exists v, calculate_co2_equivalent d = Ok v /\
            (amount_at d "CO2" <=? v) = true.
Proof.
  intros Hall Hd. unfold pollutants in Hall.
  apply Forall_cons in Hall as [[co2 H1]%dict_get_is_Some Hall].
  apply Forall_cons in Hall as [[ch4 H2]%dict_get_is_Some Hall].
  apply Forall_cons in Hall as [[n2o H3]%dict_get_is_Some _].
  unfold nonneg_record in Hd. rewrite Forall_forall in Hd.
  pose proof (Hd _ (dict_get_values _ _ _ H1)) as Hco2.
  pose proof (Hd _ (dict_get_values _ _ _ H2)) as Hch4.
  pose proof (Hd _ (dict_get_values _ _ _ H3)) as Hn2o.
  unfold calculate_co2_equivalent, getitem, amount_at. rewrite H1, H2, H3.
  eexists. split; [reflexivity|]. cbn [default].
  assert (nonneg (co2 * 1)) by nonneg.
  assert (nonneg (ch4 * 29.8)) by nonneg.
  assert (nonneg (n2o * 273)) by nonneg.
  eapply leb_trans; [by apply mul_one_ge|].
  eapply leb_trans; [by apply (add_ge (co2 * 1) (ch4 * 29.8))|].
  apply add_ge; [by apply add_nonneg | done].
Qed.

Lemma co2_equivalent_at_least_co2_witness :
  exists v,
    calculate_co2_equivalent (record3 10 1 0.1) = Ok v /\
    (amount_at (record3 10 1 0.1) "CO2" <=? v) = true.
Proof.
  apply co2_equivalent_at_least_co2.
  - repeat constructor.
  - repeat constructor.
Defined.

(** ** Scenario consolidation, continued *)

(** X14. Whatever it is given, when consolidation returns, the record it
    returns has exactly the keys CO2, CH4, N2O, so the CO2-equivalent
    conversion of that record never fails. *)
Theorem consolidate_result_is_full_record t a r :
  consolidate_scenario_emissions t a = Ok r ->
  keys r = pollutants /\ is_Ok (calculate_co2_equivalent r).
Proof.
  intros Hrun.
  destruct (consolidate_cases t a) as [[_ (r' & Hr' & Hkeys)]|[_ (k & _ & Hk)]];
    [|congruence].
  assert (r' = r) as -> by congruence. split; [done|].
  destruct (calculate_co2_equivalent_cases r) as [[_ Hok]|(k & Hk & Hnot & _)];
    [done|].
  by rewrite Hkeys in Hnot.
Qed.

Lemma consolidate_result_is_full_record_witness :
  keys [("CO2", 65); ("CH4", 1.5); ("N2O", 0.15000000000000002)] = pollutants
  /\ is_Ok (calculate_co2_equivalent
              [("CO2", 65); ("CH4", 1.5); ("N2O", 0.15000000000000002)]).
Proof.
  apply (consolidate_result_is_full_record
           [("A", [("CO2", 10); ("CH4", 1); ("N2O", 0.1)])]
           [("solar", Scalar 50);
            ("diesel", Nested [("CO2", 5); ("CH4", 0.5); ("N2O", 0.05)])]).
  reflexivity.
Defined.

(** X16. The error names the first offending key: if the transport records
    before [d] have tracked keys only, and in [d] the entries before the key
    [k] too, and [k] is not a tracked gas, consolidation raises
    [KeyError k], whatever comes later. *)
Theorem consolidate_reports_first_foreign_key t1 unit d1 k v d2 t2 a :
  Forall only_tracked (values t1) ->
  only_tracked d1 -> k ∉ pollutants ->
  consolidate_scenario_emissions
    (t1 ++ (unit, d1 ++ (k, v) :: d2) :: t2) a
  = Raise (KeyError k).
Proof.
  intros Ht1 Hd1 Hk. rewrite consolidate_scenario_emissions_eq.
  unfold contributions, values. rewrite fmap_app, <-app_assoc, for_each_app.
  destruct (add_records_spec zero_totals t1.*2)
    as [(_ & total & -> & Hkeys & _)|(k' & d & Hd & Hk' & Hnot & _)].
  - cbn [mbind result_bind fmap list_fmap app for_each snd].
    rewrite for_each_app.
    destruct (add_record_spec total d1)
      as [(_ & total' & -> & Hkeys' & _)|(k' & Hk' & Hnot & _)].
    + cbn [mbind result_bind for_each].
      rewrite add_amount_notin; [done|]. by rewrite Hkeys', Hkeys.
    + exfalso. apply Hnot. rewrite Hkeys.
      unfold only_tracked in Hd1. rewrite Forall_forall in Hd1. by apply Hd1.
  - exfalso. apply Hnot. fold (values t1) in Hd.
    rewrite Forall_forall in Ht1. specialize (Ht1 d Hd).
    unfold only_tracked in Ht1. rewrite Forall_forall in Ht1. by apply Ht1.
Qed.

Lemma consolidate_reports_first_foreign_key_witness :
  consolidate_scenario_emissions
    [("A", [("CO2", 10)]);
     ("B", [("CH4", 1); ("NOx", 3); ("SOx", 4)]);
     ("C", [("PM", 5)])]
    [("diesel", Nested [("CO", 1)])]
  = Raise (KeyError "NOx").
Proof.
  apply (consolidate_reports_first_foreign_key
           [("A", [("CO2", 10)])] "B" [("CH4", 1)] "NOx" 3
           [("SOx", 4)] [("C", [("PM", 5)])]).
  - repeat constructor.
  - repeat constructor.
  - not_tracked.
Defined.

(** X17. Consolidation accepts what [embodied_renewable_emissions] returns:
    with Pollutant Emission Records as transport totals the result has the
    three gases; onto the running transport total of CO2 the embodied BESS,
    solar and wind amounts and the CO2 of the embodied diesel record are
    added, in this order, and onto those of CH4 and N2O the CH4 and the N2O
    of the diesel record. *)
Theorem consolidate_with_embodied
    t target_solar target_wind target_bess_energy target_diesel :
  Forall tracked_record (values t) ->
  exists e r,
    embodied_renewable_emissions
      target_solar target_wind target_bess_energy target_diesel = Ok e /\
    consolidate_scenario_emissions t e = Ok r /\
    keys r = pollutants /\
    dict_get r "CO2"
    = Some (add_in_order 0 (amounts_at "CO2" (values t))
            + target_bess_energy * 220000 + target_solar * 1100000
            + target_wind * 683700
            + target_diesel * 138700 / 1e6 * 12747.98) /\
    dict_get r "CH4"
    = Some (add_in_order 0 (amounts_at "CH4" (values t))
            + target_diesel * 138700 / 1e6 * 109.519) /\
    dict_get r "N2O"
    = Some (add_in_order 0 (amounts_at "N2O" (values t))
            + target_diesel * 138700 / 1e6 * 0.233).
Proof.
  intros Ht. rewrite embodied_renewable_emissions_eq. eexists.
  match goal with |- context [Ok ?x = Ok _] => set (e := x) end.
  destruct (consolidate_tracked t e) as (r & Hrun & Hkeys & Hamt).
  { apply Forall_app. split; [done|].
    apply Forall_singleton, record3_tracked. }
  exists r. split_and!; [done..| | |];
    (rewrite Hamt by repeat constructor);
    unfold contributions; by rewrite amounts_at_app, add_in_order_app.
Qed.

Lemma consolidate_with_embodied_witness :
  exists e r,
    embodied_renewable_emissions 180 570 3410 5600 = Ok e /\
    consolidate_scenario_emissions
      [("A", [("CO2", 10); ("CH4", 1); ("N2O", 0.1)])] e = Ok r /\
    keys r = pollutants.
Proof.
  destruct (consolidate_with_embodied
              [("A", [("CO2", 10); ("CH4", 1); ("N2O", 0.1)])]
              180 570 3410 5600)
    as (e & r & He & Hr & Hkeys & _).
  - apply Forall_singleton. split; [wf_closed | repeat constructor].
  - by exists e, r.
Defined.

Lemma record_of_keys (r : dict float) :
  keys r = pollutants -> exists co2 ch4 n2o, r = record3 co2 ch4 n2o.
Proof.
  destruct r as [|[k1 v1] [|[k2 v2] [|[k3 v3] [|]]]]; try done.
  intros [= -> -> ->]. by exists v1, v2, v3.
Qed.

(** X24. Consolidation of records without negative values and of bare
    numbers that are not negative returns totals that are not negative
    either, and each total is at least every value added into it, whatever
    the rounding of the additions. *)
Theorem consolidate_at_least_each_part t a :
  Forall tracked_record (values t ++ nested_records a) ->
  Forall nonneg_record (contributions t a) ->
  exists r,
    consolidate_scenario_emissions t a = Ok r /\
    nonneg_record r /\
    forall d p v, d ∈ contributions t a -> dict_get d p = Some v ->
      exists total, dict_get r p = Some total /\ (v <=? total) = true.
Proof.
  intros Htracked Hnonneg.
  destruct (consolidate_tracked t a Htracked) as (r & Hrun & Hkeys & Hget).
  assert (Htotal : forall p, p ∈ pollutants ->
            nonneg (add_in_order 0 (amounts_at p (contributions t a)))).
  { intros p _. apply add_in_order_nonneg; [reflexivity|].
    by apply amounts_at_nonneg. }
  exists r. split_and!; [done| |].
  - destruct (record_of_keys r Hkeys) as (co2 & ch4 & n2o & ->).
    pose proof (Hget "CO2" ltac:(repeat constructor)) as [= ->].
    pose proof (Hget "CH4" ltac:(repeat constructor)) as [= ->].
    pose proof (Hget "N2O" ltac:(repeat constructor)) as [= ->].
    repeat (apply Forall_cons; split; [apply Htotal; repeat constructor|]).
    apply Forall_nil_2.
  - intros d p v Hd Hv.
    assert (Hp : p ∈ pollutants).
    { apply (contributions_Forall _ _ _ scalar_record_tracked) in Htracked.
      rewrite Forall_forall in Htracked. destruct (Htracked d Hd) as [_ Hall].
      unfold only_tracked in Hall. rewrite Forall_forall in Hall.
      apply Hall, dict_get_is_Some. by exists v. }
    eexists. split; [by apply Hget|].
    apply add_in_order_ge_amount; [reflexivity | by apply amounts_at_nonneg |].
    by eapply elem_of_amounts_at.
Qed.

Lemma consolidate_at_least_each_part_witness :
  let t := [("A", [("CO2", 10); ("CH4", 1); ("N2O", 0.1)])] in
  let a := [("solar", Scalar 50);
            ("diesel", Nested [("CO2", 5); ("CH4", 0.5); ("N2O", 0.05)])] in
  exists r,
    consolidate_scenario_emissions t a = Ok r /\
    nonneg_record r /\
    forall d p v, d ∈ contributions t a -> dict_get d p = Some v ->
      exists total, dict_get r p = Some total /\ (v <=? total) = true.
Proof.
  intros t a. apply consolidate_at_least_each_part.
  - repeat constructor; try wf_closed; by vm_compute.
  - repeat constructor.
Defined.

(** ** The scenario composer, continued *)

(** X18. The composer returns exactly when the three divisors it computes
    are non-zero: the turbine power, the number of wind trucks (seven per
    turbine) and the number of BESS units; and its result never depends on
    [target_bess_power]. *)
Theorem composer_returns_iff_no_zero_divisor
    target_solar turbine_power target_wind target_bess_power
    target_bess_energy target_diesel :
  (is_Ok (transportation_scenario_emissions target_solar turbine_power
            target_wind target_bess_power target_bess_energy target_diesel)
   <-> (turbine_power =? 0) = false
       /\ (target_wind / turbine_power * 7 =? 0) = false
       /\ (target_bess_energy / 1240 =? 0) = false)
  /\ (forall other_bess_power,
        transportation_scenario_emissions target_solar turbine_power
          target_wind other_bess_power target_bess_energy target_diesel
        = transportation_scenario_emissions target_solar turbine_power
            target_wind target_bess_power target_bess_energy target_diesel).
Proof.
  destruct (turbine_power =? 0) eqn:Hp;
    [|destruct (target_wind / turbine_power * 7 =? 0) eqn:Hw;
      [|destruct (target_bess_energy / 1240 =? 0) eqn:Hb]].
  4: { split.
       - rewrite transportation_scenario_emissions_eq by done.
         split; [done | by eexists].
       - intros. by rewrite !transportation_scenario_emissions_eq by done. }
  all: split;
    [ rewrite transportation_scenario_emissions_zero by auto;
      split; [by intros [? [=]] | by intros (? & ? & ?)]
    | intros; by rewrite !transportation_scenario_emissions_zero by auto ].
Qed.

Lemma composer_returns_iff_no_zero_divisor_witness :
  is_Ok (transportation_scenario_emissions 5000 1000 20000 500 10000 2000).
Proof.
  apply (proj1 (composer_returns_iff_no_zero_divisor
                  5000 1000 20000 500 10000 2000)).
  split_and!; reflexivity.
Defined.

(** X19. Whenever the composer returns, its result has the four component
    names as keys, in the order wind, PV, BESS, diesel, and each component
    total is a record with exactly the keys CO2, CH4, N2O; for targets and a
    turbine power that are not negative, no amount in it is negative. *)
Theorem composer_totals_shape
    target_solar turbine_power target_wind target_bess_power
    target_bess_energy target_diesel totals :
  transportation_scenario_emissions target_solar turbine_power target_wind
    target_bess_power target_bess_energy target_diesel = Ok totals ->
  keys totals = components /\
  Forall (fun r => keys r = pollutants) (values totals) /\
  (nonneg target_solar -> nonneg turbine_power -> nonneg target_wind ->
   nonneg target_bess_energy -> nonneg target_diesel ->
   Forall not_negative_record (values totals)).
Proof.
  destruct (turbine_power =? 0) eqn:Hp;
    [|destruct (target_wind / turbine_power * 7 =? 0) eqn:Hw;
      [|destruct (target_bess_energy / 1240 =? 0) eqn:Hb]].
  4: { rewrite transportation_scenario_emissions_eq by done.
       intros [= <-]. split_and!; [reflexivity| |].
       - repeat (apply Forall_cons; split; [apply component_total_keys|]).
         apply Forall_nil_2.
       - intros Hs Hpower Hwind Hbess Hdiesel.
         cbn [values fmap list_fmap snd].
         repeat (apply Forall_cons; split;
                 [apply component_total_not_negative; not_negative|]).
         apply Forall_nil_2. }
  all: by rewrite transportation_scenario_emissions_zero by auto.
Qed.

Lemma composer_totals_shape_witness :
  exists totals,
    transportation_scenario_emissions 5000 1000 20000 500 10000 2000
    = Ok totals /\
    keys totals = components /\
    Forall (fun r => keys r = pollutants) (values totals) /\
    Forall not_negative_record (values totals).
Proof.
  eexists. split; [reflexivity|].
  destruct (composer_totals_shape 5000 1000 20000 500 10000 2000 _ eq_refl)
    as (Hkeys & Hrecords & Hsign).
  split_and!; [done..|]. apply Hsign; reflexivity.
Defined.

(** X21. The whole pipeline composes: whenever the composer returns, its
    transport totals and the embodied emissions of the same targets are
    consolidated without error into a record of the three gases, whose
    CO2-equivalent conversion returns. *)
Theorem pipeline_returns
    target_solar turbine_power target_wind target_bess_power
    target_bess_energy target_diesel transport :
  transportation_scenario_emissions target_solar turbine_power target_wind
    target_bess_power target_bess_energy target_diesel = Ok transport ->
  exists embodied total co2e,
    embodied_renewable_emissions
      target_solar target_wind target_bess_energy target_diesel = Ok embodied /\
    consolidate_scenario_emissions transport embodied = Ok total /\
    keys total = pollutants /\
    calculate_co2_equivalent total = Ok co2e.
Proof.
  intros Hrun. rewrite embodied_renewable_emissions_eq. eexists.
  match goal with |- context [Ok ?x = Ok _] => set (e := x) end.
  assert (Htracked : Forall tracked_record (values transport ++ nested_records e)).
  { apply Forall_app. split; [|apply Forall_singleton, record3_tracked].
    revert Hrun.
    destruct (turbine_power =? 0) eqn:Hp;
      [|destruct (target_wind / turbine_power * 7 =? 0) eqn:Hw;
        [|destruct (target_bess_energy / 1240 =? 0) eqn:Hb]].
    4: { rewrite transportation_scenario_emissions_eq by done.
         intros [= <-].
         repeat (apply Forall_cons; split; [apply component_total_tracked|]).
         apply Forall_nil_2. }
    all: by rewrite transportation_scenario_emissions_zero by auto. }
  destruct (consolidate_tracked transport e Htracked) as (total & Htotal & Hkeys & _).
  destruct (calculate_co2_equivalent_cases total)
    as [[_ [co2e Hco2e]]|(k & Hk & Hnot & _)]; [|by rewrite Hkeys in Hnot].
  by exists total, co2e.
Qed.

Lemma pipeline_returns_witness :
  exists transport embodied total co2e,
    transportation_scenario_emissions 5000 1000 20000 500 10000 2000
    = Ok transport /\
    embodied_renewable_emissions 5000 20000 10000 2000 = Ok embodied /\
    consolidate_scenario_emissions transport embodied = Ok total /\
    keys total = pollutants /\
    calculate_co2_equivalent total = Ok co2e.
Proof.
  eexists.
  destruct (pipeline_returns 5000 1000 20000 500 10000 2000 _ eq_refl)
    as (embodied & total & co2e & H).
  by exists embodied, total, co2e.
Defined.

(** ** Embodied emissions *)

(** X22. [embodied_renewable_emissions] returns for every input a mapping
    with the keys bess, solar, wind, diesel, in that order: three bare
    numbers, each the target times its fixed factor, and under diesel the
    very record [calculate_emissions_from_diesel] returns for the diesel
    target, which the copy made of it leaves as it is. *)
Theorem embodied_emissions_shape
    target_solar target_wind target_bess_energy target_diesel :
  exists diesel,
    calculate_emissions_from_diesel target_diesel = Ok diesel /\
    embodied_renewable_emissions
      target_solar target_wind target_bess_energy target_diesel
    = Ok [("bess", Scalar (target_bess_energy * 220000));
          ("solar", Scalar (target_solar * 1100000));
          ("wind", Scalar (target_wind * 683700));
          ("diesel", Nested diesel)].
Proof.
  rewrite embodied_renewable_emissions_eq, calculate_emissions_from_diesel_eq.
  by eexists.
Qed.
